(** * awpa.patcomp: the pattern compiler

    A shallow embedding of [src/awpa/patcomp.py] (the pattern compiler that
    awpa inherits from lib2to3) and the properties of its two mutually
    recursive methods, [PatternCompiler.compile_node] and
    [PatternCompiler.compile_basic].

    Python exceptions are values of [exn]; a computation that may raise has
    type [result A].  The modules [pytree], [pgen2.literals] and the grammar
    tables are imported by the source but are not part of it: the matcher
    nodes are data, built for a wildcard by a constructor that checks its
    arguments, and [optimize], [HUGE], [evalString] and the numbering of
    the grammars are parameters of the development. *)

From Stdlib Require Import ZArith String Ascii List Lia.
From stdpp Require Import base option list strings gmap.

Set Warnings "-register-all".

Local Open Scope Z_scope.
Local Open Scope string_scope.

(** ** Python exceptions and the error monad *)

Inductive exn : Type :=
| PatternSyntaxError (msg : string)
| AssertionError
| IndexError
| AttributeError
| UnboundLocalError
| ValueError.

(** [OutOfFuel] is not a Python outcome: it is what the fuelled recursion
    answers when its fuel is spent, and [compile_node_total] shows that the
    compiler never answers it. *)
Inductive result (A : Type) : Type :=
| Ok (a : A)
| Raise (e : exn)
| OutOfFuel.

Arguments Ok {A} a.
Arguments Raise {A} e.
Arguments OutOfFuel {A}.

Definition bind {A B : Type} (m : result A) (k : A -> result B) : result B :=
  match m with
  | Ok a => k a
  | Raise e => Raise e
  | OutOfFuel => OutOfFuel
  end.

Notation "'do' x <- m ; k" := (bind m (fun x => k))
  (at level 10, x name, m at level 100, k at level 200,
   format "'[v' 'do'  x  <-  m ; '/' k ']'").

Notation "'do' ( x , y ) <- m ; k" := (bind m (fun '(x, y) => k))
  (at level 10, x name, y name, m at level 100, k at level 200,
   format "'[v' 'do'  ( x ,  y )  <-  m ; '/' k ']'").

(** [assert c]. *)
Definition assert (c : bool) : result unit :=
  if c then Ok tt else Raise AssertionError.

(** [[f(x) for x in l]]: the calls are made from left to right and the first
    exception ends the comprehension. *)
Fixpoint comprehension {A B : Type} (f : A -> result B) (l : list A)
  : result (list B) :=
  match l with
  | [] => Ok []
  | x :: l' => do y <- f x; do ys <- comprehension f l'; Ok (y :: ys)
  end.

(** [l[i]] for [i >= 0]. *)
Definition index {A : Type} (l : list A) (i : nat) : result A :=
  match l !! i with
  | Some x => Ok x
  | None => Raise IndexError
  end.

(** [l[-1]]. *)
Definition index_last {A : Type} (l : list A) : result A :=
  match last l with
  | Some x => Ok x
  | None => Raise IndexError
  end.

(** [l[::2]]. *)
Fixpoint evens {A : Type} (l : list A) : list A :=
  match l with
  | [] => []
  | x :: l' => x :: match l' with [] => [] | _ :: l'' => evens l'' end
  end.

(** A local variable of a Python function: reading it before any assignment
    raises [UnboundLocalError]. *)
Inductive local (A : Type) : Type :=
| Unbound
| Bound (a : A).

Arguments Unbound {A}.
Arguments Bound {A} a.

Definition read {A : Type} (x : local A) : result A :=
  match x with
  | Bound a => Ok a
  | Unbound => Raise UnboundLocalError
  end.

(** ** The string methods the compiler calls, on ASCII text *)

Definition is_upper_char (c : ascii) : bool :=
  ((65 <=? nat_of_ascii c) && (nat_of_ascii c <=? 90))%nat.

Definition is_lower_char (c : ascii) : bool :=
  ((97 <=? nat_of_ascii c) && (nat_of_ascii c <=? 122))%nat.

Definition is_digit_char (c : ascii) : bool :=
  ((48 <=? nat_of_ascii c) && (nat_of_ascii c <=? 57))%nat.

Fixpoint any_char (p : ascii -> bool) (s : string) : bool :=
  match s with
  | EmptyString => false
  | String c s' => p c || any_char p s'
  end.

(** [s.isupper()]: some cased character, and no lowercase one. *)
Definition isupper (s : string) : bool :=
  any_char is_upper_char s && negb (any_char is_lower_char s).

(** [c.isalpha()] for a one-character string. *)
Definition isalpha (c : ascii) : bool :=
  is_upper_char c || is_lower_char c.

(** [s.startswith("_")]. *)
Definition startswith_underscore (s : string) : bool :=
  match s with
  | String c _ => bool_decide (c = "_"%char)
  | EmptyString => false
  end.

(** ["%r" % s] for a name: the text between single quotes. *)
Definition repr (s : string) : string := "'" +:+ s +:+ "'".

Fixpoint digits (acc : Z) (s : string) : option Z :=
  match s with
  | EmptyString => Some acc
  | String c s' =>
      if is_digit_char c
      then digits (10 * acc + (Z.of_nat (nat_of_ascii c) - 48)) s'
      else None
  end.

(** [int(s)] on the text of a NUMBER token: a decimal numeral, and
    [ValueError] for anything else. *)
Definition int (s : string) : result Z :=
  match s with
  | EmptyString => Raise ValueError
  | _ => match digits 0 s with
         | Some n => Ok n
         | None => Raise ValueError
         end
  end.

(** ** The pattern syntax tree

    [pattern_convert] builds a [pytree.Node(type, children)] for a symbol and
    a [pytree.Leaf(type, value)] for a token.  The two classes belong to
    [pytree]; as the spec has it (section 3), a leaf is a kind with its text
    and no children, and an interior node a kind with its children. *)

Inductive tree : Type :=
| Leaf (type : Z) (value : string)
| Node (type : Z) (children : list tree).

(** [node.type]. *)
Definition type_of (node : tree) : Z :=
  match node with
  | Leaf type _ => type
  | Node type _ => type
  end.

(** [node.children]: a leaf has none. *)
Definition children_of (node : tree) : list tree :=
  match node with
  | Leaf _ _ => []
  | Node _ children => children
  end.

(** [node.value]: only a leaf carries text. *)
Definition value_of (node : tree) : result string :=
  match node with
  | Leaf _ value => Ok value
  | Node _ _ => Raise AttributeError
  end.

Fixpoint height (node : tree) : nat :=
  match node with
  | Leaf _ _ => O
  | Node _ children => S (foldr (fun ch h => Nat.max (height ch) h) O children)
  end.

(** The greatest height in a list of nodes; the height bounds the depth of
    the recursion of [compile_node]. *)
Definition heights (nodes : list tree) : nat :=
  foldr (fun ch h => Nat.max (height ch) h) O nodes.

(** ** Matcher nodes *)

(** Modelled from the spec: the four matcher nodes of [pytree] (the
    subclasses of [pytree.BasePattern]), which is
    imported by the source and not part of it.  The spec gives their fields
    (section 3, "Matcher node"); every one of them carries the [name]
    attribute that [compile_node] assigns.  These are the nodes as they
    are once built; what the constructor of a [WildcardPattern] checks
    before it builds one is in [WildcardPattern_init]. *)
Inductive BasePattern : Type :=
| LeafPattern (type : option Z) (content : option string)
    (name : option string)
| NodePattern (type : option Z) (content : option (list BasePattern))
    (name : option string)
| WildcardPattern (content : list (list BasePattern)) (min max : Z)
    (name : option string)
| NegatedPattern (content : BasePattern) (name : option string).

(** Modelled from the spec: the call [pytree.WildcardPattern(content,
    min=min, max=max)] of the constructor, which belongs to [pytree].  The
    spec (section 3) has it that [min >= 0] and [max >= min], that the
    unbounded count is the largest, and that a wildcard has alternatives,
    each of them a sequence to match: the constructor asserts
    [0 <= min <= max <= HUGE], that [content] has an alternative, and that
    no alternative is empty.  The new node has no name. *)
Definition WildcardPattern_init (huge : Z) (content : list (list BasePattern))
    (min max : Z) : result BasePattern :=
  do _ <- assert (bool_decide (0 <= min) && bool_decide (min <= max)
                  && bool_decide (max <= huge));
  do _ <- assert (match content with [] => false | _ :: _ => true end);
  do _ <- assert (forallb (fun alt : list BasePattern =>
                             match alt with [] => false | _ :: _ => true end)
                    content);
  Ok (WildcardPattern content min max None).

(** [pattern.name]. *)
Definition name_of (p : BasePattern) : option string :=
  match p with
  | LeafPattern _ _ name => name
  | NodePattern _ _ name => name
  | WildcardPattern _ _ _ name => name
  | NegatedPattern _ name => name
  end.

(** [pattern.name = name]. *)
Definition set_name (p : BasePattern) (name : option string) : BasePattern :=
  match p with
  | LeafPattern type content _ => LeafPattern type content name
  | NodePattern type content _ => NodePattern type content name
  | WildcardPattern content min max _ => WildcardPattern content min max name
  | NegatedPattern content _ => NegatedPattern content name
  end.

(** ** Grammars *)

(** The constants of a [token] module that the compiler reads, and its
    [opmap] dictionary. *)
Record token_module : Type := {
  NAME : Z;
  STRING : Z;
  NUMBER : Z;
  EQUAL : Z;
  STAR : Z;
  PLUS : Z;
  LBRACE : Z;
  RBRACE : Z;
  opmap : gmap string Z
}.

(** The symbols of the pattern grammar ([self.syms]). *)
Record symbol_module : Type := {
  Matcher : Z;
  Alternatives : Z;
  Alternative : Z;
  NegatedUnit : Z;
  Unit : Z;
  Repeater : Z;
  Details : Z
}.

(** The pattern grammar, as [load_grammar('pattern')] returns it: its token
    module, its symbols, and the fact that a grammar numbers its tokens and
    symbols apart. *)
Record pattern_grammar : Type := {
  token : token_module;
  syms : symbol_module;
  numbering :
    NoDup [NAME token; STRING token; NUMBER token; EQUAL token; STAR token;
           PLUS token; LBRACE token; RBRACE token;
           Matcher syms; Alternatives syms; Alternative syms;
           NegatedUnit syms; Unit syms; Repeater syms; Details syms]
}.

(** The target grammar ([self.pygram]): its token module and its symbol
    table, [getattr(pygram.symbols, value, None)]. *)
Record target_grammar : Type := {
  pytoken : token_module;
  symbols : string -> option Z
}.

(** ** The compiler *)

(** What [compile_node] and [compile_basic] are given: the imports of the
    module that are not part of the source, and the fields of [self]. *)
Record compiler : Type := {
  (** [pytree.BasePattern.optimize], the normalisation of matcher nodes *)
  optimize : BasePattern -> BasePattern;
  (** [pytree.HUGE], the unbounded repeat count; it is a count, and a
      pattern may repeat once *)
  HUGE : Z;
  HUGE_count : 1 <= HUGE;
  (** [literals.evalString], the value of a string literal *)
  evalString : string -> string;
  (** [self.grammar] with [self.syms] *)
  grammar : pattern_grammar;
  (** [self.pygram] *)
  pygram : target_grammar
}.

Section PatternCompiler.

Variable self : compiler.

(** [token = self.grammar.token], [self.syms] and [self.pygram.token]. *)
Local Abbreviation token := (token (grammar self)).
Local Abbreviation syms := (syms (grammar self)).
Local Abbreviation pytoken := (pytoken (pygram self)).

(** [self.token_map], built by [__init__]; the value [None] of ["TOKEN"]
    is a leaf of any kind. *)
Definition token_map : gmap string (option Z) :=
  <["NAME" := Some (NAME pytoken)]>
    (<["STRING" := Some (STRING pytoken)]>
       (<["NUMBER" := Some (NUMBER pytoken)]>
          (<["TOKEN" := None]> ∅))).

(** [_type_of_literal(grammar, value)]; [value[0]] raises on the empty
    string. *)
Definition _type_of_literal (value : string) : result (option Z) :=
  match value with
  | EmptyString => Raise IndexError
  | String c _ =>
      if isalpha c then Ok (Some (NAME pytoken))
      else Ok (opmap pytoken !! value)
  end.

(** [get_int(node)]. *)
Definition get_int (node : tree) : result Z :=
  do _ <- assert (bool_decide (type_of node = NUMBER token));
  do value <- value_of node;
  int value.

(** The body of [compile_basic]; [compile_node] stands for the recursive
    call [self.compile_node]. *)
Definition compile_basic_with (compile_node : tree -> result BasePattern)
    (nodes : list tree) (repeat : option tree) : result BasePattern :=
  match nodes with
  | [] => Raise AssertionError
  | node :: _ =>
      if decide (type_of node = STRING token) then
        do text <- value_of node;
        let value := evalString self text in
        do type <- _type_of_literal value;
        Ok (LeafPattern type (Some value) None)
      else if decide (type_of node = NAME token) then
        do value <- value_of node;
        if isupper value then
          match token_map !! value with
          | None =>
              Raise (PatternSyntaxError ("Invalid token: " +:+ repr value))
          | Some type =>
              match drop 1 nodes with
              | _ :: _ =>
                  Raise (PatternSyntaxError "Can't have details for token")
              | [] => Ok (LeafPattern type None None)
              end
          end
        else
          do type <-
            (if decide (value = "any") then Ok (Bound None)
             else if negb (startswith_underscore value) then
               match symbols (pygram self) value with
               | None =>
                   Raise (PatternSyntaxError
                            ("Invalid symbol: " +:+ repr value))
               | Some type => Ok (Bound (Some type))
               end
             else Ok Unbound);
          do content <-
            (match drop 1 nodes with
             | _ :: _ =>
                 do details <- index nodes 1;
                 do inner <- index (children_of details) 1;
                 do p <- compile_node inner;
                 Ok (Some [p])
             | [] => Ok None
             end);
          do type <- read type;
          Ok (NodePattern type content None)
      else
        do value <- value_of node;
        if decide (value = "(") then
          do inner <- index nodes 1;
          compile_node inner
        else if decide (value = "[") then
          do _ <- assert (bool_decide (repeat = None));
          do inner <- index nodes 1;
          do subpattern <- compile_node inner;
          WildcardPattern_init (HUGE self) [[subpattern]] 0 1
        else Raise AssertionError
  end.

(** The bounds of a [Repeater] node ([compile_node], the block under
    [if repeat is not None]). *)
Definition repeat_bounds (repeat : tree) : result (Z * Z) :=
  do _ <- assert (bool_decide (type_of repeat = Repeater syms));
  let children := children_of repeat in
  do child <- index children 0;
  if decide (type_of child = STAR token) then Ok (0, HUGE self)
  else if decide (type_of child = PLUS token) then Ok (1, HUGE self)
  else if decide (type_of child = LBRACE token) then
    do closing <- index_last children;
    do _ <- assert (bool_decide (type_of closing = RBRACE token));
    do _ <- assert (bool_decide (length children = 3%nat)
                    || bool_decide (length children = 5%nat));
    do first <- index children 1;
    do min <- get_int first;
    if decide (length children = 5%nat) then
      do second <- index children 3;
      do max <- get_int second;
      Ok (min, max)
    else Ok (min, min)
  else Raise AssertionError.

(** [compile_node], a [Unit]: the capture name.
    [if len(nodes) >= 3 and nodes[1].type == token.EQUAL:
       name = nodes[0].value; nodes = nodes[2:]] *)
Definition take_name (nodes : list tree)
  : result (option string * list tree) :=
  if bool_decide (3 <= length nodes)%nat
     && bool_decide (type_of <$> nodes !! 1%nat = Some (EQUAL token))
  then
    do first <- index nodes 0;
    do name <- value_of first;
    Ok (Some name, drop 2 nodes)
  else Ok (None, nodes).

(** [compile_node], a [Unit]: the repeater.
    [if len(nodes) >= 2 and nodes[-1].type == self.syms.Repeater:
       repeat = nodes[-1]; nodes = nodes[:-1]] *)
Definition take_repeat (nodes : list tree) : option tree * list tree :=
  if bool_decide (2 <= length nodes)%nat
     && bool_decide (type_of <$> last nodes = Some (Repeater syms))
  then (last nodes, take (length nodes - 1) nodes)
  else (None, nodes).

(** [compile_node], a [Unit]: the block under [if repeat is not None]. *)
Definition wrap_repeat (pattern : BasePattern) (repeat : option tree)
  : result BasePattern :=
  match repeat with
  | Some repeat =>
      do (min, max) <- repeat_bounds repeat;
      if negb (bool_decide (min = 1)) || negb (bool_decide (max = 1))
      then WildcardPattern_init (HUGE self) [[optimize self pattern]] min max
      else Ok pattern
  | None => Ok pattern
  end.

(** [if name is not None: pattern.name = name]. *)
Definition with_name (pattern : BasePattern) (name : option string)
  : BasePattern :=
  match name with
  | Some _ => set_name pattern name
  | None => pattern
  end.

(** The body of [compile_node]; [compile_node] stands for the recursive
    call [self.compile_node]. *)
Definition compile_node_with (compile_node : tree -> result BasePattern)
    (node : tree) : result BasePattern :=
  do node <-
    (if decide (type_of node = Matcher syms)
     then index (children_of node) 0
     else Ok node);
  if decide (type_of node = Alternatives syms) then
    do alts <- comprehension compile_node (evens (children_of node));
    match alts with
    | [a] => Ok a
    | _ =>
        do p <- WildcardPattern_init (HUGE self)
                  (map (fun a => [a]) alts) 1 1;
        Ok (optimize self p)
    end
  else if decide (type_of node = Alternative syms) then
    do units <- comprehension compile_node (children_of node);
    match units with
    | [u] => Ok u
    | _ =>
        do p <- WildcardPattern_init (HUGE self) [units] 1 1;
        Ok (optimize self p)
    end
  else if decide (type_of node = NegatedUnit syms) then
    do pattern <-
      compile_basic_with compile_node (drop 1 (children_of node)) None;
    Ok (optimize self (NegatedPattern pattern None))
  else
    do _ <- assert (bool_decide (type_of node = Unit syms));
    do (name, nodes) <- take_name (children_of node);
    let '(repeat, nodes) := take_repeat nodes in
    do pattern <- compile_basic_with compile_node nodes repeat;
    do pattern <- wrap_repeat pattern repeat;
    Ok (optimize self (with_name pattern name)).

(** The recursion of [compile_node] goes down the syntax tree; it is
    unfolded [fuel] times. *)
Fixpoint compile_node_fuel (fuel : nat) (node : tree) : result BasePattern :=
  match fuel with
  | O => OutOfFuel
  | S fuel' => compile_node_with (compile_node_fuel fuel') node
  end.

(** [PatternCompiler.compile_node]. *)
Definition compile_node (node : tree) : result BasePattern :=
  compile_node_fuel (S (height node)) node.

(** [PatternCompiler.compile_basic]. *)
Definition compile_basic (nodes : list tree) (repeat : option tree)
  : result BasePattern :=
  compile_basic_with compile_node nodes repeat.

End PatternCompiler.

Arguments compile_node : simpl never.
Arguments compile_basic : simpl never.

(** The three messages that [compile_basic] gives to
    [PatternSyntaxError]. *)
Definition compiler_message (msg : string) : Prop :=
  (exists value, msg = "Invalid token: " +:+ repr value)
  \/ msg = "Can't have details for token"
  \/ (exists value, msg = "Invalid symbol: " +:+ repr value).

(** ** From the text of a pattern to its matcher *)

(** A token as [tokenize.generate_tokens] yields it:
    [(type, value, start, end, line_text)]. *)
Record quintuple : Type := {
  q_type : Z;
  q_value : string;
  q_start : nat * nat;
  q_end : nat * nat;
  q_line_text : string
}.

(** What [self.driver.parse_tokens] answers: the root of the syntax tree,
    or [parse.ParseError] with the text [str(e)]. *)
Inductive parsed : Type :=
| Root (root : tree)
| ParseError (e : string).

(** The tokenizer and the parser driver of [pgen2], which the source
    imports: the layout constants of [grammar.token], the tokens that
    [tokenize.generate_tokens(token, io.StringIO(input).readline)] yields,
    and [self.driver.parse_tokens(tokens, debug=debug)]. *)
Record pgen2 : Type := {
  NEWLINE : Z;
  INDENT : Z;
  DEDENT : Z;
  generate_tokens : string -> list quintuple;
  parse_tokens : list quintuple -> bool -> parsed
}.

(** [skip = {token.NEWLINE, token.INDENT, token.DEDENT}]. *)
Definition skip (driver : pgen2) : gset Z :=
  {[NEWLINE driver; INDENT driver; DEDENT driver]}.

(** [tokenize_wrapper(grammar, input)]: the quintuples that the generator
    yields, in their order. *)
Definition tokenize_wrapper (driver : pgen2) (input : string)
  : list quintuple :=
  filter (fun quintuple => q_type quintuple ∉ skip driver)
    (generate_tokens driver input).

(** [PatternCompiler.compile_pattern(input, debug, with_tree)]; the second
    component is the root when [with_tree] is set. *)
Definition compile_pattern (self : compiler) (driver : pgen2)
    (input : string) (debug with_tree : bool)
  : result (BasePattern * option tree) :=
  let tokens := tokenize_wrapper driver input in
  match parse_tokens driver tokens debug with
  | ParseError e => Raise (PatternSyntaxError e)
  | Root root =>
      if with_tree then
        do pattern <- compile_node self root;
        Ok (pattern, Some root)
      else
        do pattern <- compile_node self root;
        Ok (pattern, None)
  end.

(** [raw_node_info = (type, value, context, children)], as the parser
    hands it to the converter; the context is kept by no node of [tree]
    and the children of a token, for which the parser has [None], are the
    empty list. *)
Record raw_node_info : Type := {
  raw_type : Z;
  raw_value : string;
  raw_children : list tree
}.

(** [pattern_convert(grammar, raw_node_info)], with
    [grammar.number2symbol]. *)
Definition pattern_convert (number2symbol : gmap Z string)
    (raw : raw_node_info) : tree :=
  match raw_children raw with
  | _ :: _ => Node (raw_type raw) (raw_children raw)
  | [] =>
      if decide (is_Some (number2symbol !! raw_type raw))
      then Node (raw_type raw) (raw_children raw)
      else Leaf (raw_type raw) (raw_value raw)
  end.

(** ** A concrete compiler

    The numbers are those of [pgen2.token]; the symbols of the pattern
    grammar are numbered from 256 in the order of the grammar file, and the
    target grammar has three symbols. *)

Definition python_token : token_module := {|
  NAME := 1;
  NUMBER := 2;
  STRING := 3;
  PLUS := 14;
  STAR := 16;
  EQUAL := 22;
  LBRACE := 26;
  RBRACE := 27;
  opmap := list_to_map
    [("(", 7); (")", 8); ("[", 9); ("]", 10); (":", 11); (",", 12);
     ("+", 14); ("-", 15); ("*", 16); ("|", 18); ("<", 20); (">", 21);
     ("=", 22); ("{", 26); ("}", 27)]
|}.

Definition pattern_syms : symbol_module := {|
  Matcher := 256;
  Alternatives := 257;
  Alternative := 258;
  Unit := 259;
  NegatedUnit := 260;
  Repeater := 261;
  Details := 262
|}.

Definition sample_grammar : pattern_grammar := {|
  token := python_token;
  syms := pattern_syms;
  numbering := ltac:(apply (bool_decide_unpack _); exact I)
|}.

Definition sample_pygram : target_grammar := {|
  pytoken := python_token;
  symbols := fun value =>
    if decide (value = "expr") then Some 310
    else if decide (value = "power") then Some 316
    else if decide (value = "trailer") then Some 322
    else None
|}.

(** Modelled from the spec: [literals.evalString] ("evaluate the literal
    text to its unescaped value"), which is imported by the source and not
    part of it, on a literal between one-character quotes and without escape
    sequences: the text between the quotes. *)
Definition evalString_plain (text : string) : string :=
  match text with
  | String _ rest => substring 0 (String.length rest - 1) rest
  | EmptyString => EmptyString
  end.

(** The sample compiler normalises nothing. *)
Definition sample : compiler := {|
  optimize := fun p => p;
  HUGE := 2147483647;
  HUGE_count := ltac:(lia);
  evalString := evalString_plain;
  grammar := sample_grammar;
  pygram := sample_pygram
|}.

(** A sample driver. Its tokenizer yields one NAME token for each
    character of the input, and a NEWLINE token for a newline character;
    its parser rejects the empty stream and reads any other stream as the
    pattern of one unit, the name that the texts of the tokens spell. *)
Fixpoint one_token_per_char (input : string) : list quintuple :=
  match input with
  | EmptyString => []
  | String c rest =>
      {| q_type := if bool_decide (c = "010"%char) then 4 else 1;
         q_value := String c EmptyString;
         q_start := (1%nat, 0%nat);
         q_end := (1%nat, 1%nat);
         q_line_text := EmptyString |}
      :: one_token_per_char rest
  end.

Definition sample_driver : pgen2 := {|
  NEWLINE := 4;
  INDENT := 5;
  DEDENT := 6;
  generate_tokens := one_token_per_char;
  parse_tokens := fun tokens _ =>
    match tokens with
    | [] => ParseError "no token"
    | _ :: _ =>
        Root (Node 256
                [Node 257
                   [Node 258
                      [Node 259
                         [Leaf 1 (String.concat "" (map q_value tokens))]]]])
    end
|}.

(** Leaves and nodes of the sample pattern grammar. *)
Definition name_leaf (value : string) : tree := Leaf 1 value.
Definition number_leaf (value : string) : tree := Leaf 2 value.
Definition string_leaf (value : string) : tree := Leaf 3 value.
Definition op_leaf (type : Z) (value : string) : tree := Leaf type value.
Definition unit_node (children : list tree) : tree := Node 259 children.

(** The pattern [any<FOO>]: the name [any] is accepted, and the error of
    the token [FOO] inside the details comes out of [compile_basic]. *)
Definition any_FOO : list tree :=
  [name_leaf "any";
   Node 262
     [op_leaf 20 "<";
      Node 257 [Node 258 [unit_node [name_leaf "FOO"]]];
      op_leaf 21 ">"]].

(** * Properties *)

(** ** Lists of nodes and their heights *)

Lemma height_le_heights (t : tree) (nodes : list tree) :
  t ∈ nodes -> (height t <= heights nodes)%nat.
Proof.
  induction 1 as [t l | t u l _ IH]; simpl; lia.
Qed.

Lemma height_children (t node : tree) :
  t ∈ children_of node -> (height t < height node)%nat.
Proof.
  destruct node as [ty v | ty cs]; simpl; intros Hin.
  - inversion Hin.
  - apply height_le_heights in Hin. unfold heights in Hin. lia.
Qed.

Lemma evens_subseteq {A : Type} (l : list A) : evens l ⊆ l.
Proof.
  assert (H : forall n (l : list A), (length l <= n)%nat -> evens l ⊆ l).
  { clear l. induction n as [| n IH]; intros [| x [| y l]] Hlen; simpl in *;
      try lia; try done.
    intros z Hz. apply elem_of_cons in Hz as [-> | Hz]; [left |].
    do 2 right. apply IH; [lia | done]. }
  now apply (H (length l)).
Qed.

Lemma index_elem_of {A : Type} (l : list A) (i : nat) (x : A) :
  index l i = Ok x -> x ∈ l.
Proof.
  unfold index. destruct (l !! i) eqn:E; [| done].
  intros [= <-]. now apply list_elem_of_lookup_2 in E.
Qed.

Lemma comprehension_ext {A B : Type} (f g : A -> result B) (l : list A) :
  (forall x, x ∈ l -> f x = g x) -> comprehension f l = comprehension g l.
Proof.
  induction l as [| x l IH]; intros H; simpl; [done |].
  rewrite (H x) by left. rewrite IH; [done |].
  intros y Hy. apply H. now right.
Qed.

Lemma index_children_height (node : tree) (i : nat) (t : tree) :
  index (children_of node) i = Ok t -> (height t < height node)%nat.
Proof.
  intros H. apply height_children. eapply index_elem_of, H.
Qed.

(** ** The constructor of a wildcard *)

Lemma WildcardPattern_init_cases (huge : Z)
    (content : list (list BasePattern)) (min max : Z) :
  WildcardPattern_init huge content min max
  = Ok (WildcardPattern content min max None)
  \/ WildcardPattern_init huge content min max = Raise AssertionError.
Proof.
  unfold WildcardPattern_init, assert.
  repeat (case_match; simpl; auto).
Qed.

Lemma WildcardPattern_init_total (huge : Z)
    (content : list (list BasePattern)) (min max : Z) :
  WildcardPattern_init huge content min max <> OutOfFuel.
Proof.
  destruct (WildcardPattern_init_cases huge content min max) as [-> | ->];
    discriminate.
Qed.

Lemma WildcardPattern_init_Ok (huge : Z)
    (content : list (list BasePattern)) (min max : Z) :
  0 <= min -> min <= max -> max <= huge ->
  content <> [] ->
  Forall (fun alt => alt <> []) content ->
  WildcardPattern_init huge content min max
  = Ok (WildcardPattern content min max None).
Proof.
  intros Hmin Hle Hmax Hcontent Halts. unfold WildcardPattern_init.
  rewrite !bool_decide_eq_true_2 by assumption. simpl.
  destruct content as [| alt content]; [done |]. simpl.
  assert (Hall : forallb (fun alt : list BasePattern =>
                            match alt with [] => false | _ :: _ => true end)
                   (alt :: content) = true).
  { apply forallb_forall. intros a Ha.
    rewrite Forall_forall in Halts.
    apply list_elem_of_In, Halts in Ha. now destruct a. }
  simpl in Hall. rewrite Hall. reflexivity.
Qed.

(** One alternative of one pattern. *)
Lemma WildcardPattern_init_single (huge : Z) (p : BasePattern)
    (min max : Z) :
  0 <= min -> min <= max -> max <= huge ->
  WildcardPattern_init huge [[p]] min max
  = Ok (WildcardPattern [[p]] min max None).
Proof.
  intros Hmin Hle Hmax. apply WildcardPattern_init_Ok; try assumption.
  - discriminate.
  - repeat constructor. discriminate.
Qed.

(** Bounds out of order, or beyond the unbounded count. *)
Lemma WildcardPattern_init_bounds (huge : Z)
    (content : list (list BasePattern)) (min max : Z) :
  min < 0 \/ max < min \/ huge < max ->
  WildcardPattern_init huge content min max = Raise AssertionError.
Proof.
  intros H. unfold WildcardPattern_init.
  assert (Hb : bool_decide (0 <= min) && bool_decide (min <= max)
               && bool_decide (max <= huge) = false).
  { destruct H as [H | [H | H]].
    - rewrite (bool_decide_eq_false_2 (0 <= min)) by lia. reflexivity.
    - rewrite (bool_decide_eq_false_2 (min <= max)) by lia.
      apply andb_false_intro1, andb_false_r.
    - rewrite (bool_decide_eq_false_2 (max <= huge)) by lia.
      apply andb_false_r. }
  rewrite Hb. reflexivity.
Qed.

(** No alternative, or an alternative that is empty. *)
Lemma WildcardPattern_init_empty (huge : Z)
    (content : list (list BasePattern)) (min max : Z) :
  content = [] \/ [] ∈ content ->
  WildcardPattern_init huge content min max = Raise AssertionError.
Proof.
  intros H. unfold WildcardPattern_init, assert.
  destruct (bool_decide (0 <= min) && bool_decide (min <= max)
            && bool_decide (max <= huge)); [| reflexivity].
  simpl. destruct H as [-> | H]; [reflexivity |].
  destruct content as [| alt content]; [reflexivity |]. simpl.
  assert (Hall : forallb (fun alt : list BasePattern =>
                            match alt with [] => false | _ :: _ => true end)
                   (alt :: content) = false).
  { apply not_true_is_false. intros Hall.
    rewrite forallb_forall in Hall.
    apply list_elem_of_In, Hall in H. discriminate. }
  simpl in Hall. rewrite Hall. reflexivity.
Qed.

(** [wildcard_cases] splits the goal on the answer of the constructor that
    it binds. *)
Ltac wildcard_cases :=
  match goal with
  | |- context [WildcardPattern_init ?h ?c ?a ?b] =>
      destruct (WildcardPattern_init_cases h c a b) as [-> | ->]; simpl
  end.

(** ** The recursion of the compiler is well founded *)

Section Recursion.

Variable self : compiler.

(** [compile_basic] calls [compile_node] on [nodes[1]] and on
    [nodes[1].children[1]] only. *)
Lemma compile_basic_with_ext (f g : tree -> result BasePattern)
    (nodes : list tree) (repeat : option tree) :
  (forall t d, d ∈ nodes -> (height t <= height d)%nat -> f t = g t) ->
  compile_basic_with self f nodes repeat
  = compile_basic_with self g nodes repeat.
Proof.
  intros H. unfold compile_basic_with.
  destruct nodes as [| node rest]; [done |].
  repeat case_decide; try done.
  - destruct (value_of node) as [value | |]; simpl; try done.
    destruct (isupper value); [done |].
    match goal with
    | |- bind ?m _ = _ => destruct m as [type | |]; simpl; try done
    end.
    destruct rest as [| details rest]; simpl; [done |].
    change (index (node :: details :: rest) 1) with (@Ok tree details);
      simpl.
    destruct (index (children_of details) 1) as [inner | |] eqn:E; simpl;
      try done.
    rewrite (H inner details); [done | set_solver |].
    apply index_children_height in E. lia.
  - destruct (value_of node) as [value | |]; simpl; try done.
    repeat case_decide; try done.
    + destruct (index (node :: rest) 1) as [inner | |] eqn:E; simpl;
        try done.
      apply (H inner inner); [| lia]. eapply index_elem_of, E.
    + destruct (assert (bool_decide (repeat = None))); simpl; try done.
      destruct (index (node :: rest) 1) as [inner | |] eqn:E; simpl;
        try done.
      rewrite (H inner inner); [done | | lia]. eapply index_elem_of, E.
Qed.

(** [compile_node] calls itself on nodes strictly below [node] only. *)
Lemma compile_node_with_ext (f g : tree -> result BasePattern) (node : tree) :
  (forall t, (height t < height node)%nat -> f t = g t) ->
  compile_node_with self f node = compile_node_with self g node.
Proof.
  intros H. unfold compile_node_with.
  match goal with
  | |- bind ?m ?kf = bind _ ?kg =>
      assert (Hgo : forall n, (height n <= height node)%nat -> kf n = kg n);
      [| destruct m as [n | |] eqn:E; simpl; try done; apply Hgo ]
  end.
  - intros n Hn. 
    assert (Hch : forall t d, d ∈ children_of n ->
              (height t <= height d)%nat -> f t = g t).
    { intros t d Hd Ht. apply H. apply height_children in Hd. lia. }
    clear H.
    destruct (decide (type_of n = Alternatives (syms (grammar self)))).
    { rewrite (comprehension_ext f g); [done |].
      intros t Ht. apply (Hch t t); [| lia]. now apply evens_subseteq. }
    destruct (decide (type_of n = Alternative (syms (grammar self)))).
    { rewrite (comprehension_ext f g); [done |].
      intros t Ht. now apply (Hch t t); [| lia]. }
    destruct (decide (type_of n = NegatedUnit (syms (grammar self)))).
    { rewrite (compile_basic_with_ext f g); [done |].
      intros t d Hd. apply Hch. eapply subseteq_drop, Hd. }
    destruct (assert (bool_decide (type_of n = Unit (syms (grammar self)))));
      simpl; try done.
    destruct (take_name self (children_of n)) as [[name nodes] | |] eqn:E;
      simpl; try done.
    assert (Hsub : nodes ⊆ children_of n).
    { revert E. unfold take_name. case_match.
      - destruct (index (children_of n) 0) as [first | |]; simpl; try done.
        destruct (value_of first); simpl; try done.
        intros [= _ <-]. apply subseteq_drop.
      - now intros [= _ <-]. }
    destruct (take_repeat self nodes) as [repeat nodes'] eqn:E'.
    assert (Hsub' : nodes' ⊆ nodes).
    { revert E'. unfold take_repeat. case_match.
      - intros [= _ <-]. apply subseteq_take.
      - now intros [= _ <-]. }
    rewrite (compile_basic_with_ext f g); [done |].
    intros t d Hd. apply Hch, Hsub, Hsub', Hd.
  - destruct (decide (type_of node = Matcher (syms (grammar self)))).
    + apply index_children_height in E. lia.
    + injection E as <-. lia.
Qed.

(** More fuel than the height of the node changes nothing. *)
Lemma compile_node_fuel_enough (fuel : nat) (node : tree) :
  (height node < fuel)%nat ->
  compile_node_fuel self fuel node = compile_node self node.
Proof.
  revert node. induction fuel as [fuel IH] using lt_wf_ind.
  intros node Hlt. unfold compile_node.
  destruct fuel as [| fuel]; [lia |]. simpl.
  apply compile_node_with_ext. intros t Ht.
  rewrite (IH fuel) by lia.
  rewrite (IH (height node)) by lia. done.
Qed.

(** The equation of [compile_node]: the method is its body, with itself
    for the recursive calls. *)
Lemma compile_node_unfold (node : tree) :
  compile_node self node = compile_node_with self (compile_node self) node.
Proof.
  unfold compile_node at 1. simpl.
  apply compile_node_with_ext. intros t Ht.
  now apply compile_node_fuel_enough.
Qed.

Lemma comprehension_total {A B : Type} (f : A -> result B) (l : list A) :
  (forall x, x ∈ l -> f x <> OutOfFuel) -> comprehension f l <> OutOfFuel.
Proof.
  induction l as [| x l IH]; intros H; simpl; [done |].
  assert (Hx := H x ltac:(left)).
  destruct (f x); simpl; try done.
  assert (Hl : comprehension f l <> OutOfFuel).
  { apply IH. intros y Hy. apply H. now right. }
  destruct (comprehension f l); simpl; done.
Qed.

Lemma index_total {A : Type} (l : list A) (i : nat) : index l i <> OutOfFuel.
Proof. unfold index. now destruct (l !! i). Qed.

Lemma repeat_bounds_total (repeat : tree) :
  repeat_bounds self repeat <> OutOfFuel.
Proof.
  unfold repeat_bounds, get_int, index, index_last, assert, value_of, int.
  repeat (first [case_decide | case_match]; simpl; try done).
Qed.

Lemma compile_basic_with_total (f : tree -> result BasePattern)
    (nodes : list tree) (repeat : option tree) :
  (forall t d, d ∈ nodes -> (height t <= height d)%nat -> f t <> OutOfFuel) ->
  compile_basic_with self f nodes repeat <> OutOfFuel.
Proof.
  intros H. unfold compile_basic_with.
  destruct nodes as [| node rest]; [done |].
  repeat case_decide; try done.
  - destruct node; simpl; [| done]. unfold _type_of_literal.
    repeat (case_match; simpl; try done).
  - destruct (value_of node) as [value | |] eqn:Ev; simpl; try done.
    { destruct (isupper value); [repeat (case_match; simpl; try done) |].
      match goal with
      | |- bind ?m _ <> _ =>
          assert (m <> OutOfFuel) by (repeat (case_match; simpl; try done));
          destruct m as [type | |]; simpl; try done
      end.
      destruct rest as [| details rest]; simpl; [now destruct type |].
      change (index (node :: details :: rest) 1) with (@Ok tree details);
        simpl.
      destruct (index (children_of details) 1) as [inner | |] eqn:E; simpl;
        try done; [| now apply index_total in E].
      assert (Hf : f inner <> OutOfFuel).
      { apply (H inner details); [set_solver |].
        apply index_children_height in E. lia. }
      destruct (f inner); simpl; try done. now destruct type. }
    now destruct node.
  - destruct (value_of node) as [value | |] eqn:Ev; simpl; try done;
      [| now destruct node].
    repeat case_decide; try done.
    + destruct (index (node :: rest) 1) as [inner | |] eqn:E; simpl;
        try done; [| now apply index_total in E].
      apply (H inner inner); [| lia]. eapply index_elem_of, E.
    + destruct repeat; simpl; [done |].
      destruct (index (node :: rest) 1) as [inner | |] eqn:E; simpl;
        try done; [| now apply index_total in E].
      assert (Hf : f inner <> OutOfFuel).
      { apply (H inner inner); [| lia]. eapply index_elem_of, E. }
      destruct (f inner); simpl; try done.
      apply WildcardPattern_init_total.
Qed.

Lemma take_name_subseteq (nodes nodes' : list tree) (name : option string) :
  take_name self nodes = Ok (name, nodes') -> nodes' ⊆ nodes.
Proof.
  unfold take_name. case_match.
  - destruct (index nodes 0) as [first | |]; simpl; try done.
    destruct (value_of first); simpl; try done.
    intros [= _ <-]. apply subseteq_drop.
  - now intros [= _ <-].
Qed.

Lemma take_repeat_subseteq (nodes nodes' : list tree) (repeat : option tree) :
  take_repeat self nodes = (repeat, nodes') -> nodes' ⊆ nodes.
Proof.
  unfold take_repeat. case_match.
  - intros [= _ <-]. apply subseteq_take.
  - now intros [= _ <-].
Qed.

Lemma take_name_total (nodes : list tree) : take_name self nodes <> OutOfFuel.
Proof.
  unfold take_name, index, value_of.
  repeat (case_match; simpl; try done).
Qed.

Lemma compile_node_with_total (f : tree -> result BasePattern) (node : tree) :
  (forall t, (height t < height node)%nat -> f t <> OutOfFuel) ->
  compile_node_with self f node <> OutOfFuel.
Proof.
  intros H. unfold compile_node_with.
  match goal with
  | |- bind ?m ?k <> _ =>
      assert (Hgo : forall n, (height n <= height node)%nat ->
                k n <> OutOfFuel);
      [| destruct m as [n | |] eqn:E; simpl; try done; [apply Hgo |] ]
  end.
  - intros n Hn.
    assert (Hch : forall t d, d ∈ children_of n ->
              (height t <= height d)%nat -> f t <> OutOfFuel).
    { intros t d Hd Ht. apply H. apply height_children in Hd. lia. }
    clear H.
    destruct (decide (type_of n = Alternatives (syms (grammar self)))).
    { assert (Hc : comprehension f (evens (children_of n)) <> OutOfFuel).
      { apply comprehension_total. intros t Ht.
        apply (Hch t t); [| lia]. now apply evens_subseteq. }
      destruct (comprehension f (evens (children_of n))) as [[| a [| b l]] | |];
        simpl; try done; wildcard_cases; done. }
    destruct (decide (type_of n = Alternative (syms (grammar self)))).
    { assert (Hc : comprehension f (children_of n) <> OutOfFuel).
      { apply comprehension_total. intros t Ht. now apply (Hch t t); [| lia]. }
      destruct (comprehension f (children_of n)) as [[| a [| b l]] | |];
        simpl; try done; wildcard_cases; done. }
    destruct (decide (type_of n = NegatedUnit (syms (grammar self)))).
    { assert (Hc : compile_basic_with self f (drop 1 (children_of n)) None
                   <> OutOfFuel).
      { apply compile_basic_with_total. intros t d Hd. apply Hch.
        eapply subseteq_drop, Hd. }
      destruct (compile_basic_with self f (drop 1 (children_of n)) None);
        simpl; done. }
    destruct (assert (bool_decide (type_of n = Unit (syms (grammar self)))))
      eqn:Ea; simpl; try done; [| unfold assert in Ea; now case_match].
    destruct (take_name self (children_of n)) as [[name nodes] | |] eqn:E;
      simpl; try done; [| now apply take_name_total in E].
    destruct (take_repeat self nodes) as [repeat nodes'] eqn:E'.
    assert (Hc : compile_basic_with self f nodes' repeat <> OutOfFuel).
    { apply compile_basic_with_total. intros t d Hd. apply Hch.
      eapply take_name_subseteq; [exact E |].
      eapply take_repeat_subseteq; [exact E' | exact Hd]. }
    destruct (compile_basic_with self f nodes' repeat) as [p | |]; simpl;
      try done.
    destruct repeat as [repeat |]; simpl; [| done].
    assert (Hb := repeat_bounds_total repeat).
    destruct (repeat_bounds self repeat) as [[min max] | |]; simpl; try done.
    case_match; simpl; [wildcard_cases |]; done.
  - case_decide; [apply index_children_height in E; lia |].
    injection E as <-. lia.
  - case_decide; [now apply index_total in E | done].
Qed.

(** [compile_node] answers on every tree: the recursion ends. *)
Lemma compile_node_total (node : tree) : compile_node self node <> OutOfFuel.
Proof.
  induction node as [node IH] using (induction_ltof1 _ height).
  rewrite compile_node_unfold. apply compile_node_with_total.
  intros t Ht. now apply IH.
Qed.

Lemma compile_basic_total (nodes : list tree) (repeat : option tree) :
  compile_basic self nodes repeat <> OutOfFuel.
Proof.
  apply compile_basic_with_total. intros t _ _ _. apply compile_node_total.
Qed.

End Recursion.

(** ** The numbering of the pattern grammar *)

(** Two constants at different places of the [numbering] list differ. *)
Lemma numbers_apart (g : pattern_grammar) (i j : nat) (x y : Z) :
  [NAME (token g); STRING (token g); NUMBER (token g); EQUAL (token g);
   STAR (token g); PLUS (token g); LBRACE (token g); RBRACE (token g);
   Matcher (syms g); Alternatives (syms g); Alternative (syms g);
   NegatedUnit (syms g); Unit (syms g); Repeater (syms g); Details (syms g)]
    !! i = Some x ->
  [NAME (token g); STRING (token g); NUMBER (token g); EQUAL (token g);
   STAR (token g); PLUS (token g); LBRACE (token g); RBRACE (token g);
   Matcher (syms g); Alternatives (syms g); Alternative (syms g);
   NegatedUnit (syms g); Unit (syms g); Repeater (syms g); Details (syms g)]
    !! j = Some y ->
  i <> j -> x <> y.
Proof.
  intros Hi Hj Hne ->. apply Hne.
  exact (NoDup_lookup _ i j y (numbering g) Hi Hj).
Qed.

(** [apart i j] proves that the constants number [i] and [j] of the list
    differ. *)
Ltac apart i j :=
  first [ eapply (numbers_apart _ i j); [reflexivity | reflexivity | lia]
        | apply not_eq_sym;
          eapply (numbers_apart _ i j); [reflexivity | reflexivity | lia] ].

(** ** Claims *)

Section Claims.

Variable self : compiler.

Local Abbreviation token := (token (grammar self)).
Local Abbreviation syms := (syms (grammar self)).
Local Abbreviation pytoken := (pytoken (pygram self)).

Local Opaque compile_node.

(** *** One alternative, one unit *)

Lemma compile_node_Alternatives_single (alt : tree) :
  compile_node self (Node (Alternatives syms) [alt]) = compile_node self alt.
Proof.
  rewrite compile_node_unfold. unfold compile_node_with.
  simpl. rewrite decide_False by apart 8%nat 9%nat. simpl.
  rewrite decide_True by reflexivity. simpl.
  destruct (compile_node self alt); reflexivity.
Qed.

Lemma compile_node_Alternative_single (unit : tree) :
  compile_node self (Node (Alternative syms) [unit])
  = compile_node self unit.
Proof.
  rewrite compile_node_unfold. unfold compile_node_with.
  simpl. rewrite decide_False by apart 8%nat 10%nat. simpl.
  rewrite decide_False by apart 9%nat 10%nat.
  rewrite decide_True by reflexivity. simpl.
  destruct (compile_node self unit); reflexivity.
Qed.

(** The root of a parsed pattern of one unit: [Matcher], whose first child
    is the [Alternatives] node. *)
Lemma compile_node_root (unit : tree) (rest : list tree) :
  compile_node self
    (Node (Matcher syms)
       (Node (Alternatives syms) [Node (Alternative syms) [unit]] :: rest))
  = compile_node self unit.
Proof.
  rewrite compile_node_unfold. unfold compile_node_with.
  simpl. rewrite decide_True by reflexivity. simpl.
  rewrite decide_True by reflexivity. simpl.
  rewrite compile_node_Alternative_single.
  destruct (compile_node self unit); reflexivity.
Qed.

(** *** The branches of [compile_node] and [compile_basic] *)

Lemma compile_node_NegatedUnit (children : list tree) :
  compile_node self (Node (NegatedUnit syms) children)
  = do pattern <- compile_basic self (drop 1 children) None;
    Ok (optimize self (NegatedPattern pattern None)).
Proof.
  rewrite compile_node_unfold. unfold compile_node_with. simpl.
  rewrite decide_False by apart 8%nat 11%nat. simpl.
  rewrite decide_False by apart 9%nat 11%nat.
  rewrite decide_False by apart 10%nat 11%nat.
  rewrite decide_True by reflexivity. reflexivity.
Qed.

Lemma compile_node_Unit (children : list tree) :
  compile_node self (Node (Unit syms) children)
  = do (name, nodes) <- take_name self children;
    let '(repeat, nodes) := take_repeat self nodes in
    do pattern <- compile_basic self nodes repeat;
    do pattern <- wrap_repeat self pattern repeat;
    Ok (optimize self (with_name pattern name)).
Proof.
  rewrite compile_node_unfold. unfold compile_node_with. simpl.
  rewrite decide_False by apart 8%nat 12%nat. simpl.
  rewrite decide_False by apart 9%nat 12%nat.
  rewrite decide_False by apart 10%nat 12%nat.
  rewrite decide_False by apart 11%nat 12%nat.
  rewrite bool_decide_eq_true_2 by reflexivity. reflexivity.
Qed.

(** A unit without a name and without a repeater. *)
Lemma compile_node_Unit_plain (children : list tree) :
  take_name self children = Ok (None, children) ->
  take_repeat self children = (None, children) ->
  compile_node self (Node (Unit syms) children)
  = do pattern <- compile_basic self children None;
    Ok (optimize self pattern).
Proof.
  intros Hn Hr. rewrite compile_node_Unit, Hn. simpl. rewrite Hr.
  destruct (compile_basic self children None); reflexivity.
Qed.

Lemma compile_basic_STRING (text : string) (rest : list tree)
    (repeat : option tree) :
  compile_basic self (Leaf (STRING token) text :: rest) repeat
  = do type <- _type_of_literal self (evalString self text);
    Ok (LeafPattern type (Some (evalString self text)) None).
Proof.
  unfold compile_basic, compile_basic_with. simpl.
  rewrite decide_True by reflexivity. reflexivity.
Qed.

Lemma compile_basic_NAME (value : string) (rest : list tree)
    (repeat : option tree) :
  compile_basic self (Leaf (NAME token) value :: rest) repeat
  = if isupper value then
      match token_map self !! value with
      | None => Raise (PatternSyntaxError ("Invalid token: " +:+ repr value))
      | Some type =>
          match rest with
          | _ :: _ => Raise (PatternSyntaxError "Can't have details for token")
          | [] => Ok (LeafPattern type None None)
          end
      end
    else
      do type <-
        (if decide (value = "any") then Ok (Bound None)
         else if negb (startswith_underscore value) then
           match symbols (pygram self) value with
           | None =>
               Raise (PatternSyntaxError ("Invalid symbol: " +:+ repr value))
           | Some type => Ok (Bound (Some type))
           end
         else Ok Unbound);
      do content <-
        (match rest with
         | details :: _ =>
             do inner <- index (children_of details) 1;
             do p <- compile_node self inner;
             Ok (Some [p])
         | [] => Ok None
         end);
      do type <- read type;
      Ok (NodePattern type content None).
Proof.
  unfold compile_basic, compile_basic_with. simpl.
  rewrite decide_False by apart 0%nat 1%nat.
  rewrite decide_True by reflexivity. simpl.
  destruct (isupper value); [reflexivity |].
  destruct rest as [| details rest]; reflexivity.
Qed.

(** The four names of [token_map]. *)
Lemma token_map_lookup (value : string) :
  token_map self !! value
  = if decide (value = "NAME") then Some (Some (NAME pytoken))
    else if decide (value = "STRING") then Some (Some (STRING pytoken))
    else if decide (value = "NUMBER") then Some (Some (NUMBER pytoken))
    else if decide (value = "TOKEN") then Some None
    else None.
Proof.
  unfold token_map. rewrite !lookup_insert, lookup_empty.
  repeat case_decide; congruence.
Qed.

(** A unit of one child has no name and no repeater. *)
Lemma compile_node_Unit_single (node : tree) :
  compile_node self (Node (Unit syms) [node])
  = do pattern <- compile_basic self [node] None;
    Ok (optimize self pattern).
Proof. apply compile_node_Unit_plain; reflexivity. Qed.

(** The unit [NAME]. *)
Lemma compile_node_Unit_NAME :
  compile_node self (Node (Unit syms) [Leaf (NAME token) "NAME"])
  = Ok (optimize self (LeafPattern (Some (NAME pytoken)) None None)).
Proof.
  rewrite compile_node_Unit_single, compile_basic_NAME. simpl.
  rewrite token_map_lookup. reflexivity.
Qed.

(** The group [[...]]: its first child is the bracket, a token that is
    neither a STRING nor a NAME. *)
Lemma compile_basic_optional (type : Z) (inner : tree) (rest : list tree)
    (repeat : option tree) :
  type <> STRING token -> type <> NAME token ->
  compile_basic self (Leaf type "[" :: inner :: rest) repeat
  = do _ <- assert (bool_decide (repeat = None));
    do subpattern <- compile_node self inner;
    Ok (WildcardPattern [[subpattern]] 0 1 None).
Proof.
  intros Hs Hn. unfold compile_basic, compile_basic_with. simpl.
  rewrite decide_False by exact Hs. rewrite decide_False by exact Hn.
  simpl. destruct (assert (bool_decide (repeat = None))); simpl;
    try reflexivity.
  destruct (compile_node self inner); simpl; try reflexivity.
  apply WildcardPattern_init_single; [lia | lia | apply HUGE_count].
Qed.

(** *** The bounds of a repeater *)

Lemma repeat_bounds_STAR (value : string) (rest : list tree) :
  repeat_bounds self (Node (Repeater syms) (Leaf (STAR token) value :: rest))
  = Ok (0, HUGE self).
Proof.
  unfold repeat_bounds. simpl.
  rewrite bool_decide_eq_true_2 by reflexivity. simpl.
  rewrite decide_True by reflexivity. reflexivity.
Qed.

Lemma repeat_bounds_PLUS (value : string) (rest : list tree) :
  repeat_bounds self (Node (Repeater syms) (Leaf (PLUS token) value :: rest))
  = Ok (1, HUGE self).
Proof.
  unfold repeat_bounds. simpl.
  rewrite bool_decide_eq_true_2 by reflexivity. simpl.
  rewrite decide_False by apart 4%nat 5%nat.
  rewrite decide_True by reflexivity. reflexivity.
Qed.

Lemma get_int_NUMBER (text : string) :
  get_int self (Leaf (NUMBER token) text) = int text.
Proof.
  unfold get_int. simpl. rewrite bool_decide_eq_true_2 by reflexivity.
  reflexivity.
Qed.

(** [{n}]. *)
Lemma repeat_bounds_exact (opening n closing : string) :
  repeat_bounds self
    (Node (Repeater syms)
       [Leaf (LBRACE token) opening; Leaf (NUMBER token) n;
        Leaf (RBRACE token) closing])
  = do min <- int n; Ok (min, min).
Proof.
  unfold repeat_bounds. simpl.
  rewrite bool_decide_eq_true_2 by reflexivity. simpl.
  rewrite decide_False by apart 4%nat 6%nat.
  rewrite decide_False by apart 5%nat 6%nat.
  rewrite decide_True by reflexivity.
  unfold index_last. simpl.
  rewrite bool_decide_eq_true_2 by reflexivity. simpl.
  rewrite get_int_NUMBER. reflexivity.
Qed.

(** [{n,m}]: the two numbers are read and paired, and not compared. *)
Lemma repeat_bounds_range (opening n m closing : string) (comma : tree) :
  repeat_bounds self
    (Node (Repeater syms)
       [Leaf (LBRACE token) opening; Leaf (NUMBER token) n; comma;
        Leaf (NUMBER token) m; Leaf (RBRACE token) closing])
  = do min <- int n; do max <- int m; Ok (min, max).
Proof.
  unfold repeat_bounds. simpl.
  rewrite bool_decide_eq_true_2 by reflexivity. simpl.
  rewrite decide_False by apart 4%nat 6%nat.
  rewrite decide_False by apart 5%nat 6%nat.
  rewrite decide_True by reflexivity.
  unfold index_last. simpl.
  rewrite bool_decide_eq_true_2 by reflexivity. simpl.
  rewrite !get_int_NUMBER. reflexivity.
Qed.

(** *** A unit and the same unit without its repeater *)

(** [compile_basic] reads [repeat] in one assertion only. *)
Lemma compile_basic_without_repeat (nodes : list tree) (repeat : tree)
    (pattern : BasePattern) :
  compile_basic self nodes (Some repeat) = Ok pattern ->
  compile_basic self nodes None = Ok pattern.
Proof.
  unfold compile_basic, compile_basic_with.
  destruct nodes as [| node rest]; [done |].
  repeat case_decide; try done.
  destruct (value_of node) as [value | |]; simpl; try done.
  repeat case_decide; done.
Qed.

(** Dropping the last child of a unit that has a repeater leaves its name
    in place. *)
Lemma take_name_without_last (children named : list tree)
    (name : option string) :
  take_name self children = Ok (name, named) ->
  (2 <= length named)%nat ->
  take_name self (take (length children - 1) children)
  = Ok (name, take (length named - 1) named).
Proof.
  unfold take_name.
  destruct children as [| a [| b [| c [| d rest]]]]; simpl;
    try (intros [= <- <-]; simpl; (lia || reflexivity)).
  - case_bool_decide.
    + destruct (value_of a); simpl; intros [= <- <-]; simpl; lia.
    + intros [= <- <-]. reflexivity.
  - case_bool_decide.
    + destruct (value_of a); simpl; intros [= <- <-]; simpl;
        rewrite ?Nat.sub_0_r; reflexivity.
    + intros [= <- <-]. simpl. rewrite ?Nat.sub_0_r. reflexivity.
Qed.

(** What [take_repeat] found when it found a repeater. *)
Lemma take_repeat_Some (named nodes : list tree) (repeat : tree) :
  take_repeat self named = (Some repeat, nodes) ->
  (2 <= length named)%nat
  /\ last named = Some repeat
  /\ type_of repeat = Repeater syms
  /\ nodes = take (length named - 1) named.
Proof.
  unfold take_repeat.
  destruct (bool_decide (2 <= length named)%nat
            && bool_decide (type_of <$> last named = Some (Repeater syms)))
    eqn:E; [| discriminate].
  apply andb_true_iff in E as [Hlen Htype].
  apply bool_decide_eq_true in Hlen, Htype.
  intros [= Hlast <-]. rewrite Hlast in Htype. simpl in Htype.
  injection Htype as Htype. repeat split; assumption.
Qed.

(** *** String literals *)

(** A literal whose value is not empty. *)
Lemma compile_basic_STRING_nonempty (text : string) (c : ascii) (s : string)
    (rest : list tree) (repeat : option tree) :
  evalString self text = String c s ->
  compile_basic self (Leaf (STRING token) text :: rest) repeat
  = Ok (LeafPattern
          (if isalpha c then Some (NAME pytoken)
           else opmap pytoken !! String c s)
          (Some (String c s)) None).
Proof.
  intros H. rewrite compile_basic_STRING, H. simpl.
  destruct (isalpha c); reflexivity.
Qed.

(** *** Names *)

Lemma token_map_None (value : string) :
  token_map self !! value = None
  <-> value ∉ ["NAME"; "STRING"; "NUMBER"; "TOKEN"].
Proof.
  rewrite token_map_lookup. rewrite !not_elem_of_cons.
  repeat case_decide; split; try done; try tauto.
  intros _. repeat split; try assumption. apply not_elem_of_nil.
Qed.

Lemma starts_with_underscore_not_any (value : string) :
  startswith_underscore value = true -> value <> "any".
Proof. intros H ->. discriminate. Qed.

Lemma index_Raise {A : Type} (l : list A) (i : nat) (e : exn) :
  index l i = Raise e -> e = IndexError.
Proof. unfold index. destruct (l !! i); [discriminate | congruence]. Qed.

(** After the symbol step of a name that is not uppercase, a
    [PatternSyntaxError] can only come from the details. *)
Lemma details_syntax_error (type : local (option Z)) (rest : list tree)
    (msg : string) :
  (do content <-
     (match rest with
      | details :: _ =>
          do inner <- index (children_of details) 1;
          do p <- compile_node self inner;
          Ok (Some [p])
      | [] => Ok None
      end);
   do type <- read type;
   Ok (NodePattern type content None))
  = Raise (PatternSyntaxError msg)
  <-> exists details rest' inner,
        rest = details :: rest'
        /\ index (children_of details) 1 = Ok inner
        /\ compile_node self inner = Raise (PatternSyntaxError msg).
Proof.
  split.
  - destruct rest as [| details rest']; simpl.
    { destruct type; simpl; discriminate. }
    destruct (index (children_of details) 1) as [inner | e |] eqn:Ei; simpl;
      try discriminate.
    + destruct (compile_node self inner) as [p | e |] eqn:Ec; simpl;
        try discriminate.
      * destruct type; simpl; discriminate.
      * intros [= ->]. now exists details, rest', inner.
    + apply index_Raise in Ei as ->. discriminate.
  - intros (details & rest' & inner & -> & Hinner & Hcompile). simpl.
    rewrite Hinner. simpl. rewrite Hcompile. reflexivity.
Qed.

(** *** The claims *)

(** C5. An [Alternatives] node with one alternative compiles to what the
    alternative compiles to, and an [Alternative] node with one unit to what
    the unit compiles to; so a pattern of one alternative of one unit
    compiles to the matcher node of the unit alone, also under the [Matcher]
    node at the root of a parsed pattern: no [WildcardPattern] is built
    around it. *)
Theorem single_alternative_collapse :
  (forall alt : tree,
     compile_node self (Node (Alternatives syms) [alt])
     = compile_node self alt)
  /\ (forall unit : tree,
        compile_node self (Node (Alternative syms) [unit])
        = compile_node self unit)
  /\ (forall unit : tree,
        compile_node self
          (Node (Alternatives syms) [Node (Alternative syms) [unit]])
        = compile_node self unit)
  /\ (forall (unit : tree) (rest : list tree),
        compile_node self
          (Node (Matcher syms)
             (Node (Alternatives syms) [Node (Alternative syms) [unit]]
              :: rest))
        = compile_node self unit).
Proof.
  split; [exact compile_node_Alternatives_single |].
  split; [exact compile_node_Alternative_single |].
  split; [| exact compile_node_root].
  intros unit. rewrite compile_node_Alternatives_single.
  apply compile_node_Alternative_single.
Qed.

(** C7. A [NegatedUnit] node compiles, with [compile_basic], the children
    after the negation token, wraps the result in a [NegatedPattern] and
    returns what [optimize] makes of it.  For the pattern [!NAME], alone or
    at the root of a parsed pattern, [optimize] is given the
    [NegatedPattern] of the leaf matcher of kind [NAME]; where [optimize]
    keeps that node, it is the result. *)
Theorem negated_unit_compiles :
  (forall children : list tree,
     compile_node self (Node (NegatedUnit syms) children)
     = do pattern <- compile_basic self (drop 1 children) None;
       Ok (optimize self (NegatedPattern pattern None)))
  /\ (forall negation : tree,
        let negated :=
          NegatedPattern (LeafPattern (Some (NAME pytoken)) None None) None in
        let node :=
          Node (NegatedUnit syms) [negation; Leaf (NAME token) "NAME"] in
        compile_node self node = Ok (optimize self negated)
        /\ (forall rest,
              compile_node self
                (Node (Matcher syms)
                   (Node (Alternatives syms)
                      [Node (Alternative syms) [node]] :: rest))
              = Ok (optimize self negated))
        /\ (optimize self negated = negated ->
            compile_node self node = Ok negated)).
Proof.
  split; [exact compile_node_NegatedUnit |].
  intros negation negated node.
  assert (H : compile_node self node = Ok (optimize self negated)).
  { unfold node. rewrite compile_node_NegatedUnit. simpl.
    rewrite compile_basic_NAME. simpl. rewrite token_map_lookup.
    reflexivity. }
  split; [exact H |]. split.
  - intros rest. rewrite compile_node_root. exact H.
  - intros Hopt. rewrite H, Hopt. reflexivity.
Qed.

(** C8. A basic pattern that begins with the bracket [[] and comes
    without a repeater compiles its second child and returns the
    [WildcardPattern] of that one alternative with [min = 0] and [max = 1];
    with a repeater the assertion of [compile_basic] fails.  For [[NAME]]
    the alternative is the leaf matcher of kind [NAME], as [optimize]
    returns it, and the unit hands the wildcard to [optimize]; where
    [optimize] keeps both nodes, the result is
    [WildcardPattern [[LeafPattern NAME]] 0 1]. *)
Theorem optional_group_compiles (type : Z) :
  type <> STRING token -> type <> NAME token ->
  (forall (inner : tree) (rest : list tree),
     compile_basic self (Leaf type "[" :: inner :: rest) None
     = do subpattern <- compile_node self inner;
       Ok (WildcardPattern [[subpattern]] 0 1 None))
  /\ (forall (inner : tree) (rest : list tree) (repeat : tree),
        compile_basic self (Leaf type "[" :: inner :: rest) (Some repeat)
        = Raise AssertionError)
  /\ (forall close : tree,
        type_of close <> Repeater syms ->
        let leaf := LeafPattern (Some (NAME pytoken)) None None in
        let nodes :=
          [Leaf type "[";
           Node (Alternatives syms)
             [Node (Alternative syms)
                [Node (Unit syms) [Leaf (NAME token) "NAME"]]];
           close] in
        compile_basic self nodes None
        = Ok (WildcardPattern [[optimize self leaf]] 0 1 None)
        /\ compile_node self (Node (Unit syms) nodes)
           = Ok (optimize self
                   (WildcardPattern [[optimize self leaf]] 0 1 None))
        /\ (optimize self leaf = leaf ->
            optimize self (WildcardPattern [[leaf]] 0 1 None)
            = WildcardPattern [[leaf]] 0 1 None ->
            compile_node self (Node (Unit syms) nodes)
            = Ok (WildcardPattern [[leaf]] 0 1 None))).
Proof.
  intros Hs Hn. split; [| split].
  - intros inner rest. now rewrite compile_basic_optional.
  - intros inner rest repeat. now rewrite compile_basic_optional.
  - intros close Hclose leaf nodes.
    assert (Hbasic : compile_basic self nodes None
                     = Ok (WildcardPattern [[optimize self leaf]] 0 1 None)).
    { unfold nodes. rewrite compile_basic_optional by assumption. simpl.
      rewrite compile_node_Alternatives_single,
        compile_node_Alternative_single, compile_node_Unit_NAME.
      reflexivity. }
    assert (Hunit : compile_node self (Node (Unit syms) nodes)
                    = Ok (optimize self
                            (WildcardPattern [[optimize self leaf]] 0 1
                               None))).
    { rewrite compile_node_Unit_plain.
      - rewrite Hbasic. reflexivity.
      - unfold take_name, nodes. simpl.
        rewrite (bool_decide_eq_false_2 (Some _ = Some _)); [reflexivity |].
        intros [= H]. revert H. apart 3%nat 9%nat.
      - unfold take_repeat, nodes. simpl.
        rewrite (bool_decide_eq_false_2 (Some _ = Some _)); [reflexivity |].
        intros [= H]. now apply Hclose. }
    split; [exact Hbasic |]. split; [exact Hunit |].
    intros Hleaf Hwild. rewrite Hunit, Hleaf, Hwild. reflexivity.
Qed.

(** C3, amended. The bounds of a repeater: [*] gives [0] and [HUGE], [+]
    gives [1] and [HUGE], [{n}] gives [n] and [n], [{n,m}] gives [n] and
    [m] whatever their order.  A unit with a repeater whose bounds are not
    [(1, 1)] hands them to the constructor of [WildcardPattern] with the
    optimized basic pattern as the one alternative: bounds with
    [0 <= min <= max <= HUGE] give the wildcard with these bounds (then
    named, and handed to the last [optimize], as every unit is), and bounds
    out of order, [{n,m}] with [n > m], or beyond [HUGE] fail the assertion
    of the constructor. *)
Theorem repeat_bounds_and_wrapping :
  (forall value rest,
     repeat_bounds self
       (Node (Repeater syms) (Leaf (STAR token) value :: rest))
     = Ok (0, HUGE self))
  /\ (forall value rest,
        repeat_bounds self
          (Node (Repeater syms) (Leaf (PLUS token) value :: rest))
        = Ok (1, HUGE self))
  /\ (forall opening n closing k,
        int n = Ok k ->
        repeat_bounds self
          (Node (Repeater syms)
             [Leaf (LBRACE token) opening; Leaf (NUMBER token) n;
              Leaf (RBRACE token) closing])
        = Ok (k, k))
  /\ (forall opening n comma m closing k j,
        int n = Ok k -> int m = Ok j ->
        repeat_bounds self
          (Node (Repeater syms)
             [Leaf (LBRACE token) opening; Leaf (NUMBER token) n; comma;
              Leaf (NUMBER token) m; Leaf (RBRACE token) closing])
        = Ok (k, j))
  /\ (forall children name named repeat nodes pattern min max,
        take_name self children = Ok (name, named) ->
        take_repeat self named = (Some repeat, nodes) ->
        compile_basic self nodes (Some repeat) = Ok pattern ->
        repeat_bounds self repeat = Ok (min, max) ->
        min <> 1 \/ max <> 1 ->
        0 <= min -> min <= max -> max <= HUGE self ->
        compile_node self (Node (Unit syms) children)
        = Ok (optimize self
                (with_name
                   (WildcardPattern [[optimize self pattern]] min max None)
                   name)))
  /\ (forall children name named repeat nodes pattern min max,
        take_name self children = Ok (name, named) ->
        take_repeat self named = (Some repeat, nodes) ->
        compile_basic self nodes (Some repeat) = Ok pattern ->
        repeat_bounds self repeat = Ok (min, max) ->
        min < 0 \/ max < min \/ HUGE self < max ->
        compile_node self (Node (Unit syms) children)
        = Raise AssertionError).
Proof.
  split; [exact repeat_bounds_STAR |].
  split; [exact repeat_bounds_PLUS |].
  split; [| split; [| split]].
  - intros opening n closing k Hn.
    rewrite repeat_bounds_exact, Hn. reflexivity.
  - intros opening n comma m closing k j Hn Hm.
    rewrite repeat_bounds_range, Hn, Hm. reflexivity.
  - intros children name named repeat nodes pattern min max
      Hname Hrepeat Hbasic Hbounds Hne Hmin Hle Hmax.
    rewrite compile_node_Unit, Hname. simpl. rewrite Hrepeat, Hbasic.
    simpl. rewrite Hbounds. simpl.
    assert (Hwrap : negb (bool_decide (min = 1)) || negb (bool_decide (max = 1))
                    = true).
    { destruct Hne as [H | H];
        rewrite (bool_decide_eq_false_2 _ H); simpl;
        [reflexivity | apply orb_true_r]. }
    rewrite Hwrap.
    rewrite WildcardPattern_init_single by assumption. reflexivity.
  - intros children name named repeat nodes pattern min max
      Hname Hrepeat Hbasic Hbounds Hout.
    assert (Hcount := HUGE_count self).
    rewrite compile_node_Unit, Hname. simpl. rewrite Hrepeat, Hbasic.
    simpl. rewrite Hbounds. simpl.
    assert (Hwrap : negb (bool_decide (min = 1)) || negb (bool_decide (max = 1))
                    = true).
    { destruct (decide (min = 1)) as [-> | H].
      - rewrite (bool_decide_eq_false_2 (max = 1)) by lia.
        apply orb_true_r.
      - rewrite (bool_decide_eq_false_2 _ H). reflexivity. }
    rewrite Hwrap.
    rewrite WildcardPattern_init_bounds by exact Hout. reflexivity.
Qed.

(** C4. In a unit [name = ...] the name is set on the pattern that the
    repeater step returns, the wildcard when there is one and the basic
    pattern otherwise: that pattern, with the name of the unit in place of
    its own and nothing else changed, goes to the last [optimize].  For
    [y=NUMBER*], alone or at the root of a parsed pattern, [optimize] is
    given the [WildcardPattern] named [y] around the unnamed leaf matcher of
    [NUMBER]; where [optimize] keeps it, it is the result.  For [y=NUMBER]
    there is no wildcard, and the leaf matcher is the one named [y]. *)
Theorem name_binds_outermost :
  (forall type name equal named repeat nodes pattern wrapped,
     type_of equal = EQUAL token ->
     named <> [] ->
     take_repeat self named = (repeat, nodes) ->
     compile_basic self nodes repeat = Ok pattern ->
     wrap_repeat self pattern repeat = Ok wrapped ->
     compile_node self (Node (Unit syms) (Leaf type name :: equal :: named))
     = Ok (optimize self (set_name wrapped (Some name)))
     /\ name_of (set_name wrapped (Some name)) = Some name
     /\ set_name wrapped (Some name)
        = match wrapped with
          | LeafPattern kind content _ =>
              LeafPattern kind content (Some name)
          | NodePattern kind content _ =>
              NodePattern kind content (Some name)
          | WildcardPattern content min max _ =>
              WildcardPattern content min max (Some name)
          | NegatedPattern content _ => NegatedPattern content (Some name)
          end)
  /\ (forall equal star,
        let leaf := LeafPattern (Some (NUMBER pytoken)) None None in
        let wildcard :=
          WildcardPattern [[optimize self leaf]] 0 (HUGE self) (Some "y") in
        let node :=
          Node (Unit syms)
            [Leaf (NAME token) "y"; Leaf (EQUAL token) equal;
             Leaf (NAME token) "NUMBER";
             Node (Repeater syms) [Leaf (STAR token) star]] in
        compile_node self node = Ok (optimize self wildcard)
        /\ (forall rest,
              compile_node self
                (Node (Matcher syms)
                   (Node (Alternatives syms)
                      [Node (Alternative syms) [node]] :: rest))
              = Ok (optimize self wildcard))
        /\ (optimize self wildcard = wildcard ->
            compile_node self node = Ok wildcard))
  /\ (forall equal,
        compile_node self
          (Node (Unit syms)
             [Leaf (NAME token) "y"; Leaf (EQUAL token) equal;
              Leaf (NAME token) "NUMBER"])
        = Ok (optimize self
                (LeafPattern (Some (NUMBER pytoken)) None (Some "y")))).
Proof.
  assert (Hgen : forall type name equal named repeat nodes pattern wrapped,
            type_of equal = EQUAL token ->
            named <> [] ->
            take_repeat self named = (repeat, nodes) ->
            compile_basic self nodes repeat = Ok pattern ->
            wrap_repeat self pattern repeat = Ok wrapped ->
            compile_node self
              (Node (Unit syms) (Leaf type name :: equal :: named))
            = Ok (optimize self (set_name wrapped (Some name)))).
  { intros type name equal named repeat nodes pattern wrapped
      Hequal Hnamed Hrepeat Hbasic Hwrap.
    rewrite compile_node_Unit. unfold take_name.
    destruct named as [| first named]; [done |]. simpl.
    rewrite Hequal, (bool_decide_eq_true_2 (Some _ = Some _)) by reflexivity.
    simpl. rewrite Hrepeat, Hbasic. simpl. rewrite Hwrap. reflexivity. }
  split; [| split].
  - intros type name equal named repeat nodes pattern wrapped
      Hequal Hnamed Hrepeat Hbasic Hwrap.
    split; [now apply (Hgen _ _ _ _ repeat nodes pattern) |].
    split; destruct wrapped; reflexivity.
  - intros equal star leaf wildcard node.
    assert (H : compile_node self node = Ok (optimize self wildcard)).
    { unfold node.
      apply (Hgen _ _ _ _
               (Some (Node (Repeater syms) [Leaf (STAR token) star]))
               [Leaf (NAME token) "NUMBER"] leaf
               (WildcardPattern [[optimize self leaf]] 0 (HUGE self) None)).
      - reflexivity.
      - discriminate.
      - unfold take_repeat. simpl.
        rewrite (bool_decide_eq_true_2 (Some _ = Some _)) by reflexivity.
        reflexivity.
      - rewrite compile_basic_NAME. simpl. rewrite token_map_lookup.
        reflexivity.
      - unfold wrap_repeat. rewrite repeat_bounds_STAR. simpl.
        assert (Hcount := HUGE_count self).
        apply WildcardPattern_init_single; lia. }
    split; [exact H |]. split.
    + intros rest. rewrite compile_node_root. exact H.
    + intros Hopt. rewrite H, Hopt. reflexivity.
  - intros equal.
    apply (Hgen _ _ _ _ None [Leaf (NAME token) "NUMBER"]
             (LeafPattern (Some (NUMBER pytoken)) None None)
             (LeafPattern (Some (NUMBER pytoken)) None None)).
    + reflexivity.
    + discriminate.
    + reflexivity.
    + rewrite compile_basic_NAME. simpl. rewrite token_map_lookup.
      reflexivity.
    + reflexivity.
Qed.

(** C6. The repeater [{1,1}] has the bounds [(1, 1)], and a unit whose
    repeater has these bounds compiles to its basic pattern, named and
    optimized, with no [WildcardPattern] around it: to the very matcher node
    of the same unit without the repeater. *)
Theorem repeat_one_one_identity :
  (forall opening comma closing,
     repeat_bounds self
       (Node (Repeater syms)
          [Leaf (LBRACE token) opening; Leaf (NUMBER token) "1"; comma;
           Leaf (NUMBER token) "1"; Leaf (RBRACE token) closing])
     = Ok (1, 1))
  /\ (forall children name named repeat nodes pattern,
        take_name self children = Ok (name, named) ->
        take_repeat self named = (Some repeat, nodes) ->
        repeat_bounds self repeat = Ok (1, 1) ->
        compile_basic self nodes (Some repeat) = Ok pattern ->
        compile_node self (Node (Unit syms) children)
        = Ok (optimize self (with_name pattern name))
        /\ (take_repeat self nodes = (None, nodes) ->
            compile_node self
              (Node (Unit syms) (take (length children - 1) children))
            = compile_node self (Node (Unit syms) children))).
Proof.
  split.
  - intros opening comma closing. rewrite repeat_bounds_range. reflexivity.
  - intros children name named repeat nodes pattern
      Hname Hrepeat Hbounds Hbasic.
    assert (Hwith : compile_node self (Node (Unit syms) children)
                    = Ok (optimize self (with_name pattern name))).
    { rewrite compile_node_Unit, Hname. simpl. rewrite Hrepeat, Hbasic.
      simpl. rewrite Hbounds. reflexivity. }
    split; [exact Hwith |].
    intros Hplain. rewrite Hwith.
    apply take_repeat_Some in Hrepeat as (Hlen & _ & _ & ->).
    rewrite compile_node_Unit.
    rewrite (take_name_without_last _ _ _ Hname Hlen). simpl.
    rewrite Hplain.
    rewrite (compile_basic_without_repeat _ _ _ Hbasic). reflexivity.
Qed.

(** C1. A name that is not uppercase and starts with [_] skips both
    assignments of the local variable [type]: no symbol is looked up and no
    [PatternSyntaxError] is raised by the name, but [compile_basic] does not
    return a [NodePattern] either.  Without details it raises
    [UnboundLocalError] when it reads [type], and with details it returns no
    pattern whatever the details compile to. *)
Theorem reserved_name_is_unbound (value : string) (rest : list tree)
    (repeat : option tree) :
  isupper value = false ->
  startswith_underscore value = true ->
  compile_basic self [Leaf (NAME token) value] repeat
  = Raise UnboundLocalError
  /\ compile_node self (Node (Unit syms) [Leaf (NAME token) value])
     = Raise UnboundLocalError
  /\ (forall pattern,
        compile_basic self (Leaf (NAME token) value :: rest) repeat
        <> Ok pattern).
Proof.
  intros Hupper Hunder.
  assert (Hany := starts_with_underscore_not_any _ Hunder).
  assert (Hbasic : forall repeat,
            compile_basic self [Leaf (NAME token) value] repeat
            = Raise UnboundLocalError).
  { intros r. rewrite compile_basic_NAME, Hupper, Hunder.
    rewrite decide_False by exact Hany. reflexivity. }
  split; [apply Hbasic |]. split.
  - rewrite compile_node_Unit_single, Hbasic. reflexivity.
  - intros pattern. rewrite compile_basic_NAME, Hupper, Hunder.
    rewrite decide_False by exact Hany. simpl.
    destruct rest as [| details rest']; simpl; [discriminate |].
    destruct (index (children_of details) 1) as [inner | |]; simpl;
      try discriminate.
    destruct (compile_node self inner); simpl; discriminate.
Qed.

(** C2, amended. [compile_basic] on a NAME leaf raises
    [PatternSyntaxError] exactly when: the name is uppercase and not one of
    [NAME], [STRING], [NUMBER], [TOKEN]; or it is one of them and further
    children follow; or it is not uppercase, is not [any], does not start
    with [_] and is not a symbol of the target grammar; or it is not
    uppercase, passes the symbol step, carries details, and the compilation
    of the sub-pattern of the details raises [PatternSyntaxError]. *)
Theorem name_leaf_syntax_errors (value : string) (rest : list tree)
    (repeat : option tree) :
  (exists msg,
     compile_basic self (Leaf (NAME token) value :: rest) repeat
     = Raise (PatternSyntaxError msg))
  <->
  (isupper value = true /\ value ∉ ["NAME"; "STRING"; "NUMBER"; "TOKEN"])
  \/ (isupper value = true /\ value ∈ ["NAME"; "STRING"; "NUMBER"; "TOKEN"]
      /\ rest <> [])
  \/ (isupper value = false /\ value <> "any"
      /\ startswith_underscore value = false
      /\ symbols (pygram self) value = None)
  \/ (isupper value = false
      /\ (value = "any" \/ startswith_underscore value = true
          \/ is_Some (symbols (pygram self) value))
      /\ exists details rest' inner msg,
          rest = details :: rest'
          /\ index (children_of details) 1 = Ok inner
          /\ compile_node self inner = Raise (PatternSyntaxError msg)).
Proof.
  rewrite compile_basic_NAME.
  destruct (isupper value) eqn:Hupper.
  - destruct (token_map self !! value) as [type |] eqn:Hmap.
    + assert (Hin : value ∈ ["NAME"; "STRING"; "NUMBER"; "TOKEN"]).
      { destruct (decide (value ∈ ["NAME"; "STRING"; "NUMBER"; "TOKEN"]))
          as [H | H]; [exact H |].
        apply token_map_None in H. congruence. }
      destruct rest as [| details rest']; split.
      * intros [msg H]. discriminate.
      * intros [[_ H] | [(_ & _ & H) | [(H & _) | (H & _)]]];
          try discriminate; done.
      * intros _. right. left. done.
      * intros _. eexists. reflexivity.
    + apply token_map_None in Hmap. split.
      * intros _. left. done.
      * intros _. eexists. reflexivity.
  - destruct (decide (value = "any")) as [Hany | Hany];
      [| destruct (startswith_underscore value) eqn:Hunder; simpl;
         [| destruct (symbols (pygram self) value) as [type |] eqn:Hsym]];
      simpl.
    + split.
      * intros [msg H]. apply (details_syntax_error (Bound None)) in H.
        destruct H as (details & rest' & inner & H).
        do 3 right. split; [reflexivity |]. split; [now left |].
        now exists details, rest', inner, msg.
      * intros [[H _] | [(H & _) | [(_ & H & _) | (_ & _ & H)]]];
          try discriminate; try done.
        destruct H as (details & rest' & inner & msg & H).
        exists msg. apply (details_syntax_error (Bound None)).
        now exists details, rest', inner.
    + split.
      * intros [msg H]. apply (details_syntax_error Unbound) in H.
        destruct H as (details & rest' & inner & H).
        do 3 right. split; [reflexivity |]. split; [now right; left |].
        now exists details, rest', inner, msg.
      * intros [[H _] | [(H & _) | [(_ & _ & H & _) | (_ & _ & H)]]];
          try discriminate.
        destruct H as (details & rest' & inner & msg & H).
        exists msg. apply (details_syntax_error Unbound).
        now exists details, rest', inner.
    + split.
      * intros [msg H]. apply (details_syntax_error (Bound (Some type))) in H.
        destruct H as (details & rest' & inner & H).
        do 3 right. split; [reflexivity |].
        split; [right; right; now exists type |].
        now exists details, rest', inner, msg.
      * intros [[H _] | [(H & _) | [(_ & _ & _ & H) | (_ & _ & H)]]];
          try discriminate.
        destruct H as (details & rest' & inner & msg & H).
        exists msg. apply (details_syntax_error (Bound (Some type))).
        now exists details, rest', inner.
    + split.
      * intros _. right. right. left. done.
      * intros _. eexists. reflexivity.
Qed.

(** C9, and the literal of the empty string. A STRING leaf whose value is
    not empty gives the [LeafPattern] of that value, of kind [NAME] when the
    value starts with an alphabetic character and of the kind that [opmap]
    has for the value otherwise.  A STRING leaf whose value is the empty
    string raises [IndexError]: [_type_of_literal] reads [value[0]] and no
    [LeafPattern] is returned, where the claim has the kind looked up in
    [opmap]. *)
Theorem string_literal_kind (text : string) (rest : list tree)
    (repeat : option tree) :
  (forall c s,
     evalString self text = String c s ->
     compile_basic self (Leaf (STRING token) text :: rest) repeat
     = Ok (LeafPattern
             (if isalpha c then Some (NAME pytoken)
              else opmap pytoken !! String c s)
             (Some (String c s)) None))
  /\ (evalString self text = "" ->
      compile_basic self (Leaf (STRING token) text :: rest) repeat
      = Raise IndexError
      /\ compile_node self (Node (Unit syms) [Leaf (STRING token) text])
         = Raise IndexError).
Proof.
  split; [intros c s; apply compile_basic_STRING_nonempty |].
  intros H.
  assert (Hbasic : forall rest repeat,
            compile_basic self (Leaf (STRING token) text :: rest) repeat
            = Raise IndexError).
  { intros rest0 repeat0. rewrite compile_basic_STRING, H. reflexivity. }
  split; [apply Hbasic |].
  rewrite compile_node_Unit_single, Hbasic. reflexivity.
Qed.

(** C10, and the literal of the empty string. A STRING leaf whose value is
    not a key of [opmap] and starts with a character that is not alphabetic
    gives the [LeafPattern] of that value with no kind.  The empty string
    starts with no alphabetic character either, and for it
    [_type_of_literal] does not reach [opmap]: it raises [IndexError], and
    so does [compile_basic]. *)
Theorem unlisted_literal_kind (text : string) (rest : list tree)
    (repeat : option tree) :
  opmap pytoken !! evalString self text = None ->
  (forall c s,
     evalString self text = String c s ->
     isalpha c = false ->
     compile_basic self (Leaf (STRING token) text :: rest) repeat
     = Ok (LeafPattern None (Some (String c s)) None))
  /\ (evalString self text = "" ->
      _type_of_literal self (evalString self text) = Raise IndexError
      /\ compile_basic self (Leaf (STRING token) text :: rest) repeat
         = Raise IndexError).
Proof.
  intros Hop. split.
  - intros c s Hvalue Halpha.
    rewrite (compile_basic_STRING_nonempty _ _ _ _ _ Hvalue), Halpha.
    rewrite <- Hvalue, Hop. reflexivity.
  - intros Hvalue. rewrite compile_basic_STRING, Hvalue.
    split; reflexivity.
Qed.

End Claims.

(** ** The claims on the sample compiler *)

(** C1 at the name [_x]. *)
Lemma reserved_name_is_unbound_witness :
  compile_basic sample [name_leaf "_x"] None = Raise UnboundLocalError
  /\ compile_node sample (unit_node [name_leaf "_x"])
     = Raise UnboundLocalError.
Proof.
  destruct (reserved_name_is_unbound sample "_x" [] None) as (H1 & H2 & _);
    [reflexivity | reflexivity |].
  split; [exact H1 | exact H2].
Defined.

(** C2 as stated fails on [any<FOO>]: [compile_basic] raises
    [PatternSyntaxError] on a NAME leaf that is in none of the three
    cases. *)
Lemma name_leaf_syntax_errors_counterexample :
  compile_basic sample any_FOO None
  = Raise (PatternSyntaxError "Invalid token: 'FOO'")
  /\ ~ ((isupper "any" = true
         /\ "any" ∉ ["NAME"; "STRING"; "NUMBER"; "TOKEN"])
        \/ (isupper "any" = true
            /\ "any" ∈ ["NAME"; "STRING"; "NUMBER"; "TOKEN"]
            /\ drop 1 any_FOO <> [])
        \/ (isupper "any" = false /\ "any" <> "any"
            /\ startswith_underscore "any" = false
            /\ symbols sample_pygram "any" = None)).
Proof.
  split; [vm_compute; reflexivity |].
  intros [[H _] | [[H _] | (_ & H & _)]]; [discriminate | discriminate |].
  now apply H.
Qed.

(** C2, amended, on [any<FOO>]. *)
Lemma name_leaf_syntax_errors_witness :
  exists msg,
    compile_basic sample any_FOO None = Raise (PatternSyntaxError msg).
Proof.
  apply (proj2 (name_leaf_syntax_errors sample "any" (drop 1 any_FOO) None)).
  do 3 right. split; [reflexivity |]. split; [now left |].
  eexists _, _, _, _. split; [reflexivity |].
  split; [reflexivity | vm_compute; reflexivity].
Defined.

(** C3 as stated fails on [expr{5,2}]: the bounds are [5] and [2], and the
    unit does not compile to the wildcard with these bounds: the
    constructor refuses them. *)
Lemma repeat_bounds_and_wrapping_counterexample :
  repeat_bounds sample
    (Node 261
       [op_leaf 26 "{"; number_leaf "5"; op_leaf 12 ",";
        number_leaf "2"; op_leaf 27 "}"])
  = Ok (5, 2)
  /\ compile_node sample
       (unit_node
          [name_leaf "expr";
           Node 261
             [op_leaf 26 "{"; number_leaf "5"; op_leaf 12 ",";
              number_leaf "2"; op_leaf 27 "}"]])
     = Raise AssertionError
  /\ compile_node sample
       (unit_node
          [name_leaf "expr";
           Node 261
             [op_leaf 26 "{"; number_leaf "5"; op_leaf 12 ",";
              number_leaf "2"; op_leaf 27 "}"]])
     <> Ok (WildcardPattern [[NodePattern (Some 310) None None]] 5 2 None).
Proof.
  split; [vm_compute; reflexivity |].
  split; [vm_compute; reflexivity |].
  vm_compute. discriminate.
Qed.

(** C3, amended, on [expr{2,5}] and on [expr{5,2}]. *)
Lemma repeat_bounds_and_wrapping_witness :
  compile_node sample
    (unit_node
       [name_leaf "expr";
        Node 261
          [op_leaf 26 "{"; number_leaf "2"; op_leaf 12 ",";
           number_leaf "5"; op_leaf 27 "}"]])
  = Ok (WildcardPattern [[NodePattern (Some 310) None None]] 2 5 None)
  /\ compile_node sample
       (unit_node
          [name_leaf "expr";
           Node 261
             [op_leaf 26 "{"; number_leaf "5"; op_leaf 12 ",";
              number_leaf "2"; op_leaf 27 "}"]])
     = Raise AssertionError.
Proof.
  destruct (repeat_bounds_and_wrapping sample) as (_ & _ & _ & _ & H & H').
  split.
  - refine (H _ None _ _ [name_leaf "expr"]
              (NodePattern (Some 310) None None) 2 5 _ _ _ _ _ _ _ _).
    + reflexivity.
    + reflexivity.
    + vm_compute. reflexivity.
    + reflexivity.
    + left. lia.
    + lia.
    + lia.
    + simpl. lia.
  - refine (H' _ None _ _ [name_leaf "expr"]
              (NodePattern (Some 310) None None) 5 2 _ _ _ _ _).
    + reflexivity.
    + reflexivity.
    + vm_compute. reflexivity.
    + reflexivity.
    + right. left. lia.
Defined.

(** C4 on [y=NUMBER*]. *)
Lemma name_binds_outermost_witness :
  compile_node sample
    (unit_node
       [name_leaf "y"; op_leaf 22 "="; name_leaf "NUMBER";
        Node 261 [op_leaf 16 "*"]])
  = Ok (WildcardPattern [[LeafPattern (Some 2) None None]] 0 2147483647
          (Some "y")).
Proof.
  destruct (name_binds_outermost sample) as (_ & H & _).
  destruct (H "=" "*") as (_ & _ & H').
  apply H'. reflexivity.
Defined.

(** C6 on [expr{1,1}] and [expr]. *)
Lemma repeat_one_one_identity_witness :
  compile_node sample
    (unit_node
       [name_leaf "expr";
        Node 261
          [op_leaf 26 "{"; number_leaf "1"; op_leaf 12 ",";
           number_leaf "1"; op_leaf 27 "}"]])
  = Ok (NodePattern (Some 310) None None)
  /\ compile_node sample (unit_node [name_leaf "expr"])
     = compile_node sample
         (unit_node
            [name_leaf "expr";
             Node 261
               [op_leaf 26 "{"; number_leaf "1"; op_leaf 12 ",";
                number_leaf "1"; op_leaf 27 "}"]]).
Proof.
  destruct (repeat_one_one_identity sample) as [_ H].
  destruct (H [name_leaf "expr";
               Node 261
                 [op_leaf 26 "{"; number_leaf "1"; op_leaf 12 ",";
                  number_leaf "1"; op_leaf 27 "}"]]
              None
              [name_leaf "expr";
               Node 261
                 [op_leaf 26 "{"; number_leaf "1"; op_leaf 12 ",";
                  number_leaf "1"; op_leaf 27 "}"]]
              (Node 261
                 [op_leaf 26 "{"; number_leaf "1"; op_leaf 12 ",";
                  number_leaf "1"; op_leaf 27 "}"])
              [name_leaf "expr"]
              (NodePattern (Some 310) None None)) as [H1 H2].
  - reflexivity.
  - reflexivity.
  - reflexivity.
  - vm_compute. reflexivity.
  - split; [exact H1 |]. apply H2. reflexivity.
Defined.

(** C7 on [!NAME]. *)
Lemma negated_unit_compiles_witness :
  compile_node sample (Node 260 [op_leaf 0 "!"; name_leaf "NAME"])
  = Ok (NegatedPattern (LeafPattern (Some 1) None None) None).
Proof.
  destruct (negated_unit_compiles sample) as [_ H].
  destruct (H (op_leaf 0 "!")) as (_ & _ & H').
  apply H'. reflexivity.
Defined.

(** C8 on [[NAME]]. *)
Lemma optional_group_compiles_witness :
  compile_node sample
    (unit_node
       [op_leaf 9 "[";
        Node 257 [Node 258 [unit_node [name_leaf "NAME"]]];
        op_leaf 10 "]"])
  = Ok (WildcardPattern [[LeafPattern (Some 1) None None]] 0 1 None).
Proof.
  destruct (optional_group_compiles sample 9) as (_ & _ & H);
    [discriminate | discriminate |].
  destruct (H (op_leaf 10 "]")) as (_ & _ & H'); [discriminate |].
  apply H'; reflexivity.
Defined.

(** C9 on the literals ['x'], ['+'] and ['']. *)
Lemma string_literal_kind_witness :
  compile_basic sample [string_leaf "'x'"] None
  = Ok (LeafPattern (Some 1) (Some "x") None)
  /\ compile_basic sample [string_leaf "'+'"] None
     = Ok (LeafPattern (Some 14) (Some "+") None)
  /\ compile_basic sample [string_leaf "''"] None = Raise IndexError
  /\ compile_node sample (unit_node [string_leaf "''"]) = Raise IndexError.
Proof.
  split; [| split].
  - destruct (string_literal_kind sample "'x'" [] None) as [H _].
    apply (H "x"%char ""). reflexivity.
  - destruct (string_literal_kind sample "'+'" [] None) as [H _].
    apply (H "+"%char ""). reflexivity.
  - destruct (string_literal_kind sample "''" [] None) as [_ H].
    apply H. reflexivity.
Defined.

(** C10 on the literals ['?'] and ['']. *)
Lemma unlisted_literal_kind_witness :
  compile_basic sample [string_leaf "'?'"] None
  = Ok (LeafPattern None (Some "?") None)
  /\ compile_basic sample [string_leaf "''"] None = Raise IndexError.
Proof.
  split.
  - destruct (unlisted_literal_kind sample "'?'" [] None) as [H _];
      [vm_compute; reflexivity |].
    apply (H "?"%char ""); reflexivity.
  - destruct (unlisted_literal_kind sample "''" [] None) as [_ H];
      [vm_compute; reflexivity |].
    apply H. reflexivity.
Defined.

(** * More of the compiler *)

(** ** Invariants of the recursion *)

Lemma comprehension_Ok {A B : Type} (f : A -> result B) (l : list A)
    (ys : list B) :
  comprehension f l = Ok ys <-> Forall2 (fun x y => f x = Ok y) l ys.
Proof.
  revert ys. induction l as [| x l IH]; intros ys; simpl.
  - split.
    + intros [= <-]. constructor.
    + intros H. inversion H. reflexivity.
  - split.
    + destruct (f x) as [y | |] eqn:Ex; simpl; try discriminate.
      destruct (comprehension f l) as [ys' | |]; simpl; try discriminate.
      intros [= <-]. constructor; [exact Ex |]. now apply IH.
    + intros H. inversion H as [| x' y l' ys' Hx Hl]; subst.
      rewrite Hx. simpl. apply IH in Hl. rewrite Hl. reflexivity.
Qed.

Lemma comprehension_Raise {A B : Type} (f : A -> result B) (l : list A)
    (e : exn) :
  comprehension f l = Raise e <->
  exists l1 x l2 ys,
    l = (l1 ++ x :: l2)%list
    /\ Forall2 (fun x y => f x = Ok y) l1 ys
    /\ f x = Raise e.
Proof.
  induction l as [| x l IH]; simpl.
  - split; [discriminate |].
    intros (l1 & y & l2 & ys & H & _). now destruct l1.
  - split.
    + destruct (f x) as [y | e' |] eqn:Ex; simpl; try discriminate.
      * destruct (comprehension f l) as [ys' | e' |] eqn:El; simpl;
          try discriminate.
        intros [= ->].
        destruct (proj1 IH eq_refl) as (l1 & z & l2 & ys & -> & Hl1 & Hz).
        exists (x :: l1), z, l2, (y :: ys).
        split; [reflexivity |]. split; [now constructor | exact Hz].
      * intros [= ->]. exists [], x, l, [].
        split; [reflexivity |]. split; [constructor | exact Ex].
    + intros (l1 & z & l2 & ys & Hl & Hl1 & Hz).
      destruct l1 as [| x1 l1]; simpl in Hl; injection Hl as -> ->.
      * rewrite Hz. reflexivity.
      * inversion Hl1 as [| ? y ? ys' Hx Hrest]; subst.
        rewrite Hx. simpl.
        assert (Hr : comprehension f (l1 ++ z :: l2)%list = Raise e).
        { apply IH. now exists l1, z, l2, ys'. }
        rewrite Hr. reflexivity.
Qed.

Lemma value_of_Raise (node : tree) (e : exn) :
  value_of node = Raise e -> e = AttributeError.
Proof. destruct node; simpl; [discriminate | congruence]. Qed.

Section Invariants.

Variable self : compiler.

Local Abbreviation token := (token (grammar self)).
Local Abbreviation syms := (syms (grammar self)).
Local Abbreviation pytoken := (pytoken (pygram self)).

(** A property of results that [OutOfFuel] has and that the body of
    [compile_node] keeps holds of every result of [compile_node]. *)
Lemma compile_node_invariant (Q : result BasePattern -> Prop) :
  Q OutOfFuel ->
  (forall f node, (forall t, Q (f t)) -> Q (compile_node_with self f node)) ->
  forall node, Q (compile_node self node).
Proof.
  intros H0 Hbody node. unfold compile_node.
  generalize (S (height node)). intros fuel. revert node.
  induction fuel as [| fuel IH]; intros node; simpl; [exact H0 |].
  apply Hbody. exact IH.
Qed.

Lemma take_name_no_syntax_error (nodes : list tree) (msg : string) :
  take_name self nodes <> Raise (PatternSyntaxError msg).
Proof.
  unfold take_name, index, value_of.
  repeat (case_match; simpl; try discriminate).
Qed.

Lemma repeat_bounds_no_syntax_error (repeat : tree) (msg : string) :
  repeat_bounds self repeat <> Raise (PatternSyntaxError msg).
Proof.
  unfold repeat_bounds, get_int, index, index_last, assert, value_of, int.
  repeat (first [case_decide | case_match]; simpl; try discriminate).
Qed.

Lemma wrap_repeat_no_syntax_error (pattern : BasePattern)
    (repeat : option tree) (msg : string) :
  wrap_repeat self pattern repeat <> Raise (PatternSyntaxError msg).
Proof.
  unfold wrap_repeat. destruct repeat as [repeat |]; [| discriminate].
  assert (H := repeat_bounds_no_syntax_error repeat msg).
  destruct (repeat_bounds self repeat) as [[min max] | e |]; simpl;
    [| congruence | discriminate].
  case_match; [wildcard_cases |]; discriminate.
Qed.

(** The messages of [compile_basic], when those of its recursive calls are
    among the three. *)
Lemma compile_basic_with_messages (f : tree -> result BasePattern)
    (nodes : list tree) (repeat : option tree) (msg : string) :
  (forall t m, f t = Raise (PatternSyntaxError m) -> compiler_message m) ->
  compile_basic_with self f nodes repeat = Raise (PatternSyntaxError msg) ->
  compiler_message msg.
Proof.
  intros Hf. unfold compile_basic_with.
  destruct nodes as [| node rest]; [discriminate |].
  repeat case_decide.
  - destruct node; simpl; [| discriminate]. unfold _type_of_literal.
    repeat (case_match; simpl; try discriminate).
  - destruct (value_of node) as [value | e |] eqn:Ev; simpl;
      [| apply value_of_Raise in Ev as ->; discriminate | discriminate].
    destruct (isupper value).
    { destruct (token_map self !! value).
      - destruct rest; simpl; [discriminate |].
        intros [= <-]. right. now left.
      - intros [= <-]. left. now exists value. }
    case_decide; simpl.
    + destruct rest as [| details rest]; simpl; [discriminate |].
      change (index (node :: details :: rest) 1) with (@Ok tree details).
      simpl.
      destruct (index (children_of details) 1) as [inner | e |] eqn:Ei; simpl;
        try discriminate; [| apply index_Raise in Ei as ->; discriminate].
      destruct (f inner) as [p | e |] eqn:Ef; simpl; try discriminate.
      intros [= ->]. eapply Hf, Ef.
    + destruct (startswith_underscore value); simpl.
      * destruct rest as [| details rest]; simpl; [discriminate |].
        change (index (node :: details :: rest) 1) with (@Ok tree details).
        simpl.
        destruct (index (children_of details) 1) as [inner | e |] eqn:Ei;
          simpl; try discriminate;
          [| apply index_Raise in Ei as ->; discriminate].
        destruct (f inner) as [p | e |] eqn:Ef; simpl; try discriminate.
        intros [= ->]. eapply Hf, Ef.
      * destruct (symbols (pygram self) value); simpl.
        -- destruct rest as [| details rest]; simpl; [discriminate |].
           change (index (node :: details :: rest) 1)
             with (@Ok tree details).
           simpl.
           destruct (index (children_of details) 1) as [inner | e |] eqn:Ei;
             simpl; try discriminate;
             [| apply index_Raise in Ei as ->; discriminate].
           destruct (f inner) as [p | e |] eqn:Ef; simpl; try discriminate.
           intros [= ->]. eapply Hf, Ef.
        -- intros [= <-]. right. right. now exists value.
  - destruct (value_of node) as [value | e |] eqn:Ev; simpl;
      [| apply value_of_Raise in Ev as ->; discriminate | discriminate].
    repeat case_decide; try discriminate.
    + destruct (index (node :: rest) 1) as [inner | e |] eqn:Ei; simpl;
        try discriminate; [| apply index_Raise in Ei as ->; discriminate].
      apply Hf.
    + destruct repeat; simpl; [discriminate |].
      destruct (index (node :: rest) 1) as [inner | e |] eqn:Ei; simpl;
        try discriminate; [| apply index_Raise in Ei as ->; discriminate].
      destruct (f inner) as [p | e |] eqn:Ef; simpl;
        [wildcard_cases; discriminate | | discriminate].
      intros [= ->]. eapply Hf, Ef.
Qed.

End Invariants.

Section Extras.

Variable self : compiler.

Local Abbreviation token := (token (grammar self)).
Local Abbreviation syms := (syms (grammar self)).
Local Abbreviation pytoken := (pytoken (pygram self)).

Local Opaque compile_node.

(** X1. The recursion of [compile_node] ends on every syntax tree: the
    method answers (a pattern or an exception), its answer satisfies the
    equation of its body with itself for the recursive calls, and unfolding
    the recursion more often than the tree is high changes nothing. *)
Theorem compile_node_terminates (node : tree) :
  compile_node self node <> OutOfFuel
  /\ compile_node self node
     = compile_node_with self (compile_node self) node
  /\ (forall fuel,
        (height node < fuel)%nat ->
        compile_node_fuel self fuel node = compile_node self node)
  /\ (forall nodes repeat, compile_basic self nodes repeat <> OutOfFuel).
Proof.
  split; [apply compile_node_total |].
  split; [apply compile_node_unfold |].
  split; [intros fuel; apply compile_node_fuel_enough |].
  apply compile_basic_total.
Qed.

(** X2. Whatever pattern [compile_node] returns has come out of
    [optimize]: no branch of the method returns a matcher node that it
    built, or that [compile_basic] built, without normalising it. *)
Theorem results_are_optimized (node : tree) (pattern : BasePattern) :
  compile_node self node = Ok pattern ->
  exists built, pattern = optimize self built.
Proof.
  revert pattern.
  apply (compile_node_invariant self
           (fun r => forall p, r = Ok p -> exists q, p = optimize self q)).
  { discriminate. }
  clear node. intros f node Hf pattern. unfold compile_node_with.
  match goal with
  | |- bind ?m _ = _ -> _ => destruct m as [n | |]; simpl; try discriminate
  end.
  destruct (decide (type_of n = Alternatives syms)) as [Ha | Ha];
    [| destruct (decide (type_of n = Alternative syms)) as [Hb | Hb];
       [| destruct (decide (type_of n = NegatedUnit syms)) as [Hc | Hc]]].
  - destruct (comprehension f (evens (children_of n))) as [alts | |] eqn:E;
      simpl; try discriminate.
    destruct alts as [| a [| b alts]];
      try (simpl; wildcard_cases;
           [intros [= <-]; eexists; reflexivity | discriminate]).
    intros [= <-]. apply comprehension_Ok in E.
    inversion E as [| x y l ys Hx Hl]; subst. eapply Hf, Hx.
  - destruct (comprehension f (children_of n)) as [units | |] eqn:E;
      simpl; try discriminate.
    destruct units as [| a [| b units]];
      try (simpl; wildcard_cases;
           [intros [= <-]; eexists; reflexivity | discriminate]).
    intros [= <-]. apply comprehension_Ok in E.
    inversion E as [| x y l ys Hx Hl]; subst. eapply Hf, Hx.
  - destruct (compile_basic_with self f (drop 1 (children_of n)) None);
      simpl; try discriminate.
    intros [= <-]. eexists. reflexivity.
  - destruct (assert (bool_decide (type_of n = Unit syms))); simpl;
      try discriminate.
    destruct (take_name self (children_of n)) as [[name nodes] | |]; simpl;
      try discriminate.
    destruct (take_repeat self nodes) as [repeat nodes'].
    destruct (compile_basic_with self f nodes' repeat) as [p | |]; simpl;
      try discriminate.
    destruct (wrap_repeat self p repeat) as [w | |]; simpl;
      try discriminate.
    intros [= <-]. eexists. reflexivity.
Qed.

(** The messages of [compile_node]. *)
Lemma compile_node_messages (node : tree) (msg : string) :
  compile_node self node = Raise (PatternSyntaxError msg) ->
  compiler_message msg.
Proof.
  revert msg.
  apply (compile_node_invariant self
           (fun r => forall m, r = Raise (PatternSyntaxError m) ->
                               compiler_message m)).
  { discriminate. }
  clear node. intros f node Hf msg. unfold compile_node_with.
  match goal with
  | |- bind ?m _ = _ -> _ =>
      destruct m as [n | e |] eqn:En; simpl; try discriminate
  end.
  2: { case_decide; [| discriminate].
       apply index_Raise in En as ->. discriminate. }
  destruct (decide (type_of n = Alternatives syms)) as [Ha | Ha];
    [| destruct (decide (type_of n = Alternative syms)) as [Hb | Hb];
       [| destruct (decide (type_of n = NegatedUnit syms)) as [Hc | Hc]]].
  - destruct (comprehension f (evens (children_of n))) as [alts | e |] eqn:E;
      simpl; try discriminate.
    + destruct alts as [| a [| b alts]]; simpl;
        try discriminate; wildcard_cases; discriminate.
    + intros [= ->]. apply comprehension_Raise in E
        as (l1 & x & l2 & ys & _ & _ & Hx). eapply Hf, Hx.
  - destruct (comprehension f (children_of n)) as [units | e |] eqn:E;
      simpl; try discriminate.
    + destruct units as [| a [| b units]]; simpl;
        try discriminate; wildcard_cases; discriminate.
    + intros [= ->]. apply comprehension_Raise in E
        as (l1 & x & l2 & ys & _ & _ & Hx). eapply Hf, Hx.
  - destruct (compile_basic_with self f (drop 1 (children_of n)) None)
      as [p | e |] eqn:E; simpl; try discriminate.
    intros [= ->]. eapply compile_basic_with_messages; [exact Hf | exact E].
  - unfold assert.
    destruct (bool_decide (type_of n = Unit syms)); simpl;
      [| discriminate].
    destruct (take_name self (children_of n)) as [[name nodes] | e |] eqn:E;
      simpl; try discriminate.
    2: { intros [= ->]. now apply take_name_no_syntax_error in E. }
    destruct (take_repeat self nodes) as [repeat nodes'].
    destruct (compile_basic_with self f nodes' repeat) as [p | e |] eqn:Eb;
      simpl; try discriminate.
    2: { intros [= ->].
         eapply compile_basic_with_messages; [exact Hf | exact Eb]. }
    destruct (wrap_repeat self p repeat) as [w | e |] eqn:Ew; simpl;
      try discriminate.
    intros [= ->]. now apply wrap_repeat_no_syntax_error in Ew.
Qed.

(** X3. A [PatternSyntaxError] of [compile_node] or [compile_basic]
    carries one of three messages: [Invalid token: 'X'],
    [Can't have details for token] or [Invalid symbol: 'x']; no other step
    of the compiler raises this exception. *)
Theorem syntax_error_messages :
  (forall node msg,
     compile_node self node = Raise (PatternSyntaxError msg) ->
     compiler_message msg)
  /\ (forall nodes repeat msg,
        compile_basic self nodes repeat = Raise (PatternSyntaxError msg) ->
        compiler_message msg).
Proof.
  split; [exact compile_node_messages |].
  intros nodes repeat msg. apply compile_basic_with_messages.
  exact compile_node_messages.
Qed.

(** The branch of [compile_node] for the nodes that are not a
    [Matcher]. *)
Lemma compile_node_Alternatives (children : list tree) :
  compile_node self (Node (Alternatives syms) children)
  = do alts <- comprehension (compile_node self) (evens children);
    match alts with
    | [a] => Ok a
    | _ =>
        do p <- WildcardPattern_init (HUGE self)
                  (map (fun a => [a]) alts) 1 1;
        Ok (optimize self p)
    end.
Proof.
  rewrite compile_node_unfold. unfold compile_node_with. simpl.
  rewrite decide_False by apart 8%nat 9%nat. simpl.
  rewrite decide_True by reflexivity. reflexivity.
Qed.

Lemma compile_node_Alternative (children : list tree) :
  compile_node self (Node (Alternative syms) children)
  = do units <- comprehension (compile_node self) children;
    match units with
    | [u] => Ok u
    | _ =>
        do p <- WildcardPattern_init (HUGE self) [units] 1 1;
        Ok (optimize self p)
    end.
Proof.
  rewrite compile_node_unfold. unfold compile_node_with. simpl.
  rewrite decide_False by apart 8%nat 10%nat. simpl.
  rewrite decide_False by apart 9%nat 10%nat.
  rewrite decide_True by reflexivity. reflexivity.
Qed.

(** X4. An [Alternatives] node compiles its children at the even places,
    and never those at the odd places; when two patterns or more come out,
    the result is [optimize] of the [WildcardPattern] with [min = max = 1]
    that has one alternative of one pattern for each of them, in their
    order. *)
Theorem several_alternatives (children : list tree)
    (alts : list BasePattern) :
  Forall2 (fun ch a => compile_node self ch = Ok a) (evens children) alts ->
  (2 <= length alts)%nat ->
  compile_node self (Node (Alternatives syms) children)
  = Ok (optimize self
          (WildcardPattern (map (fun a => [a]) alts) 1 1 None)).
Proof.
  intros Hall Hlen. rewrite compile_node_Alternatives.
  apply comprehension_Ok in Hall. rewrite Hall. simpl.
  assert (Hcount := HUGE_count self).
  assert (Hinit : WildcardPattern_init (HUGE self)
                    (map (fun a => [a]) alts) 1 1
                  = Ok (WildcardPattern (map (fun a => [a]) alts) 1 1 None)).
  { apply WildcardPattern_init_Ok; try lia.
    - destruct alts; [simpl in Hlen; lia | discriminate].
    - clear. induction alts as [| a alts IH]; constructor;
        [discriminate | exact IH]. }
  destruct alts as [| a [| b alts]]; simpl in Hlen; try lia.
  rewrite Hinit. reflexivity.
Qed.

(** X5. An [Alternative] node compiles all its children in their order;
    when two patterns or more come out, the result is [optimize] of the
    [WildcardPattern] with [min = max = 1] whose only alternative is the
    sequence of these patterns. *)
Theorem sequence_of_units (children : list tree)
    (units : list BasePattern) :
  Forall2 (fun ch u => compile_node self ch = Ok u) children units ->
  (2 <= length units)%nat ->
  compile_node self (Node (Alternative syms) children)
  = Ok (optimize self (WildcardPattern [units] 1 1 None)).
Proof.
  intros Hall Hlen. rewrite compile_node_Alternative.
  apply comprehension_Ok in Hall. rewrite Hall. simpl.
  assert (Hcount := HUGE_count self).
  assert (Hinit : WildcardPattern_init (HUGE self) [units] 1 1
                  = Ok (WildcardPattern [units] 1 1 None)).
  { apply WildcardPattern_init_Ok; try lia; [discriminate |].
    repeat constructor. destruct units; [simpl in Hlen; lia | discriminate]. }
  destruct units as [| a [| b units]]; simpl in Hlen; try lia.
  rewrite Hinit. reflexivity.
Qed.

(** X6. In an [Alternative] and in an [Alternatives] node the first child
    (among those compiled) that raises decides: when the children before it
    compile, the node raises the same exception, whatever the children
    after it are. *)
Theorem first_error_wins (before : list tree) (failing : tree)
    (after : list tree) (patterns : list BasePattern) (e : exn) :
  Forall2 (fun ch p => compile_node self ch = Ok p) before patterns ->
  compile_node self failing = Raise e ->
  compile_node self
    (Node (Alternative syms) (before ++ failing :: after)%list)
  = Raise e
  /\ (forall children,
        evens children = (before ++ failing :: after)%list ->
        compile_node self (Node (Alternatives syms) children) = Raise e).
Proof.
  intros Hbefore Hfailing.
  assert (H : comprehension (compile_node self)
                (before ++ failing :: after)%list = Raise e).
  { apply comprehension_Raise. now exists before, failing, after, patterns. }
  split.
  - rewrite compile_node_Alternative, H. reflexivity.
  - intros children Hevens.
    rewrite compile_node_Alternatives, Hevens, H. reflexivity.
Qed.

(** X7. A [Matcher] node is replaced by its first child, once: the other
    children are not read, a [Matcher] under a [Matcher] fails the assertion
    on the node type, and a [Matcher] without children raises
    [IndexError]. *)
Theorem matcher_is_unwrapped_once :
  (forall child rest,
     type_of child <> Matcher syms ->
     compile_node self (Node (Matcher syms) (child :: rest))
     = compile_node self child)
  /\ (forall children rest,
        compile_node self
          (Node (Matcher syms) (Node (Matcher syms) children :: rest))
        = Raise AssertionError)
  /\ compile_node self (Node (Matcher syms) []) = Raise IndexError.
Proof.
  split; [| split].
  - intros child rest Hchild.
    rewrite (compile_node_unfold self child), compile_node_unfold.
    unfold compile_node_with. simpl.
    rewrite decide_True by reflexivity.
    rewrite (decide_False (P := type_of child = Matcher syms)) by exact Hchild.
    reflexivity.
  - intros children rest. rewrite compile_node_unfold.
    unfold compile_node_with. simpl.
    rewrite decide_True by reflexivity. simpl.
    rewrite decide_False by apart 8%nat 9%nat.
    rewrite decide_False by apart 8%nat 10%nat.
    rewrite decide_False by apart 8%nat 11%nat.
    rewrite bool_decide_eq_false_2 by apart 8%nat 12%nat.
    reflexivity.
  - rewrite compile_node_unfold. unfold compile_node_with. simpl.
    rewrite decide_True by reflexivity. reflexivity.
Qed.

(** X8. [compile_node] accepts the five kinds of node it dispatches on
    and no other: a node of any other type, a leaf or a [Repeater] or
    [Details] node for instance, fails the assertion
    [node.type == self.syms.Unit]. *)
Theorem other_nodes_are_rejected (node : tree) :
  type_of node ∉ [Matcher syms; Alternatives syms; Alternative syms;
                  NegatedUnit syms; Unit syms] ->
  compile_node self node = Raise AssertionError.
Proof.
  rewrite !not_elem_of_cons. intros (Hm & Has & Ha & Hn & Hu & _).
  rewrite compile_node_unfold. unfold compile_node_with.
  rewrite decide_False by exact Hm. simpl.
  rewrite decide_False by exact Has.
  rewrite decide_False by exact Ha.
  rewrite decide_False by exact Hn.
  rewrite bool_decide_eq_false_2 by exact Hu. reflexivity.
Qed.

(** X9. A basic pattern whose first child is a token other than a
    STRING or a NAME is a group: with the text [(] it compiles to what its
    second child compiles to, with no node of its own and whatever the
    repeater; without a second child it raises [IndexError]; and with a
    text that is neither [(] nor [[] it fails the last assertion of
    [compile_basic]. *)
Theorem group_in_parentheses (type : Z) :
  type <> STRING token -> type <> NAME token ->
  (forall inner rest repeat,
     compile_basic self (Leaf type "(" :: inner :: rest) repeat
     = compile_node self inner)
  /\ (forall repeat,
        compile_basic self [Leaf type "("] repeat = Raise IndexError)
  /\ (forall value rest repeat,
        value <> "(" -> value <> "[" ->
        compile_basic self (Leaf type value :: rest) repeat
        = Raise AssertionError).
Proof.
  intros Hs Hn.
  assert (Hhead : forall value rest repeat,
            compile_basic self (Leaf type value :: rest) repeat
            = if decide (value = "(") then
                do inner <- index (Leaf type value :: rest) 1;
                compile_node self inner
              else if decide (value = "[") then
                do _ <- assert (bool_decide (repeat = None));
                do inner <- index (Leaf type value :: rest) 1;
                do subpattern <- compile_node self inner;
                WildcardPattern_init (HUGE self) [[subpattern]] 0 1
              else Raise AssertionError).
  { intros value rest repeat. unfold compile_basic, compile_basic_with.
    simpl. rewrite decide_False by exact Hs.
    rewrite decide_False by exact Hn. reflexivity. }
  split; [| split].
  - intros inner rest repeat. rewrite Hhead. simpl.
    destruct (compile_node self inner); reflexivity.
  - intros repeat. rewrite Hhead. reflexivity.
  - intros value rest repeat Hp Hb. rewrite Hhead.
    rewrite decide_False by exact Hp. rewrite decide_False by exact Hb.
    reflexivity.
Qed.

(** X10. The four token names: [NAME], [STRING] and [NUMBER] compile to
    the leaf matcher of the kind that the target grammar gives them, and
    [TOKEN] to the leaf matcher of any kind; the leaf has no text to match
    and no name. *)
Theorem token_names (repeat : option tree) :
  compile_basic self [Leaf (NAME token) "NAME"] repeat
  = Ok (LeafPattern (Some (NAME pytoken)) None None)
  /\ compile_basic self [Leaf (NAME token) "STRING"] repeat
     = Ok (LeafPattern (Some (STRING pytoken)) None None)
  /\ compile_basic self [Leaf (NAME token) "NUMBER"] repeat
     = Ok (LeafPattern (Some (NUMBER pytoken)) None None)
  /\ compile_basic self [Leaf (NAME token) "TOKEN"] repeat
     = Ok (LeafPattern None None None).
Proof.
  repeat split; rewrite compile_basic_NAME; simpl;
    rewrite token_map_lookup; reflexivity.
Qed.

(** X11. A name that is not uppercase and is [any], or a symbol of the
    target grammar that does not start with [_], compiles to a
    [NodePattern] without a name: of any symbol for [any] (even when the
    target grammar has a symbol [any]), of the symbol of the name
    otherwise.  Without a second child the pattern has no content; with one,
    the content is the one pattern that child number 1 of that child
    compiles to, and a second child with fewer than two children raises
    [IndexError]. *)
Theorem symbol_names (value : string) (kind : option Z)
    (repeat : option tree) :
  isupper value = false ->
  (value = "any" /\ kind = None)
  \/ (value <> "any" /\ startswith_underscore value = false
      /\ is_Some kind /\ symbols (pygram self) value = kind) ->
  compile_basic self [Leaf (NAME token) value] repeat
  = Ok (NodePattern kind None None)
  /\ (forall details rest inner,
        index (children_of details) 1 = Ok inner ->
        compile_basic self (Leaf (NAME token) value :: details :: rest) repeat
        = do pattern <- compile_node self inner;
          Ok (NodePattern kind (Some [pattern]) None))
  /\ (forall details rest,
        (length (children_of details) < 2)%nat ->
        compile_basic self (Leaf (NAME token) value :: details :: rest) repeat
        = Raise IndexError).
Proof.
  intros Hupper Hkind.
  assert (Htype :
            (if decide (value = "any") then Ok (Bound None)
             else if negb (startswith_underscore value) then
               match symbols (pygram self) value with
               | None =>
                   Raise (PatternSyntaxError
                            ("Invalid symbol: " +:+ repr value))
               | Some type => Ok (Bound (Some type))
               end
             else Ok Unbound) = Ok (Bound kind)).
  { destruct Hkind as [[-> ->] | (Hany & Hunder & [type ->] & Hsym)].
    - reflexivity.
    - rewrite decide_False by exact Hany. rewrite Hunder, Hsym.
      reflexivity. }
  split; [| split].
  - rewrite compile_basic_NAME, Hupper, Htype. reflexivity.
  - intros details rest inner Hinner.
    rewrite compile_basic_NAME, Hupper, Htype. simpl. rewrite Hinner. simpl.
    destruct (compile_node self inner); reflexivity.
  - intros details rest Hlen.
    rewrite compile_basic_NAME, Hupper, Htype. simpl. unfold index.
    rewrite (lookup_ge_None_2 (children_of details) 1) by lia.
    reflexivity.
Qed.

(** X12. [compile_basic] reads its argument [repeat] in the assertion of
    the optional group only: given a repeater it either answers what it
    answers without one, or fails that assertion. *)
Theorem repeat_matters_to_optional_groups_only (nodes : list tree)
    (repeat : tree) :
  compile_basic self nodes (Some repeat) = compile_basic self nodes None
  \/ compile_basic self nodes (Some repeat) = Raise AssertionError.
Proof.
  unfold compile_basic, compile_basic_with.
  destruct nodes as [| node rest]; [now left |].
  destruct (decide (type_of node = STRING token)); [now left |].
  destruct (decide (type_of node = NAME token)); [now left |].
  destruct (value_of node) as [value | |]; simpl; [| now left | now left].
  destruct (decide (value = "(")); [now left |].
  destruct (decide (value = "[")); [now right | now left].
Qed.

(** X13. The two steps that take the name and the repeater off the
    children of a unit only split the list: the name step removes nothing or
    a first child with its text and an [=] token, and at least one child
    stays; the repeater step removes nothing or a last child of type
    [Repeater], and at least one child stays.  Children that end in a
    repeater give it back; a repeater alone is not taken, and neither is a
    name that nothing follows. *)
Theorem unit_children_are_split :
  (forall nodes name named,
     take_name self nodes = Ok (name, named) ->
     (name = None /\ nodes = named)
     \/ (exists first equal text,
           nodes = first :: equal :: named
           /\ type_of equal = EQUAL token
           /\ value_of first = Ok text
           /\ name = Some text
           /\ named <> []))
  /\ (forall named repeat nodes,
        take_repeat self named = (repeat, nodes) ->
        named = (nodes ++ option_list repeat)%list
        /\ (forall r, repeat = Some r ->
                      type_of r = Repeater syms /\ nodes <> []))
  /\ (forall nodes r,
        nodes <> [] -> type_of r = Repeater syms ->
        take_repeat self (nodes ++ [r])%list = (Some r, nodes))
  /\ (forall r, take_repeat self [r] = (None, [r]))
  /\ (forall first equal,
        take_name self [first; equal] = Ok (None, [first; equal])).
Proof.
  split; [| split; [| split; [| split]]].
  - intros nodes name named. unfold take_name.
    destruct (bool_decide (3 <= length nodes)%nat
              && bool_decide (type_of <$> nodes !! 1%nat
                              = Some (EQUAL token))) eqn:E.
    + apply andb_true_iff in E as [Hlen Heq].
      apply bool_decide_eq_true in Hlen, Heq.
      destruct nodes as [| first [| equal [| third rest]]]; simpl in Hlen;
        try lia.
      simpl in Heq. injection Heq as Heq. simpl.
      destruct (value_of first) as [text | |] eqn:Ev; simpl; try discriminate.
      intros [= <- <-]. right. exists first, equal, text.
      repeat split; try assumption; try reflexivity. discriminate.
    + intros [= <- <-]. left. split; reflexivity.
  - intros named repeat nodes. unfold take_repeat.
    destruct (bool_decide (2 <= length named)%nat
              && bool_decide (type_of <$> last named
                              = Some (Repeater syms))) eqn:E.
    + apply andb_true_iff in E as [Hlen Htype].
      apply bool_decide_eq_true in Hlen, Htype.
      intros [= <- <-].
      destruct (last named) as [r |] eqn:Hlast; [| discriminate].
      simpl in Htype. injection Htype as Htype.
      apply last_Some in Hlast as [l' ->].
      rewrite length_app in *. simpl in *.
      replace (length l' + 1 - 1)%nat with (length l') by lia.
      rewrite take_app_length. split; [reflexivity |].
      intros r' [= <-]. split; [exact Htype |].
      destruct l'; [simpl in Hlen; lia | discriminate].
    + intros [= <- <-]. simpl. rewrite app_nil_r.
      split; [reflexivity | discriminate].
  - intros nodes r Hnodes Htype. unfold take_repeat.
    rewrite last_snoc. simpl. rewrite Htype.
    rewrite length_app. simpl.
    rewrite (bool_decide_eq_true_2 (2 <= length nodes + 1)%nat)
      by (destruct nodes; [done | simpl; lia]).
    rewrite (bool_decide_eq_true_2 (Some _ = Some _)) by reflexivity.
    simpl. replace (length nodes + 1 - 1)%nat with (length nodes) by lia.
    rewrite take_app_length. reflexivity.
  - intros r. reflexivity.
  - intros first equal. reflexivity.
Qed.

(** X14. A repeater that is not one of the four shapes fails an assertion
    of [compile_node] (or, with no child, raises [IndexError]): a first
    child that is not [*], [+] or [{]; an opening brace whose last sibling
    is not a closing brace; braces around a number of children that is
    neither 3 nor 5; a child between the braces that is not a NUMBER. *)
Theorem malformed_repeaters :
  repeat_bounds self (Node (Repeater syms) []) = Raise IndexError
  /\ (forall child rest,
        type_of child ∉ [STAR token; PLUS token; LBRACE token] ->
        repeat_bounds self (Node (Repeater syms) (child :: rest))
        = Raise AssertionError)
  /\ (forall opening rest closing,
        type_of opening = LBRACE token ->
        last (opening :: rest) = Some closing ->
        type_of closing <> RBRACE token ->
        repeat_bounds self (Node (Repeater syms) (opening :: rest))
        = Raise AssertionError)
  /\ (forall opening rest closing,
        type_of opening = LBRACE token ->
        last (opening :: rest) = Some closing ->
        type_of closing = RBRACE token ->
        length (opening :: rest) <> 3%nat ->
        length (opening :: rest) <> 5%nat ->
        repeat_bounds self (Node (Repeater syms) (opening :: rest))
        = Raise AssertionError)
  /\ (forall opening first rest closing,
        type_of opening = LBRACE token ->
        last (opening :: first :: rest) = Some closing ->
        type_of closing = RBRACE token ->
        type_of first <> NUMBER token ->
        repeat_bounds self (Node (Repeater syms) (opening :: first :: rest))
        = Raise AssertionError).
Proof.
  assert (Hbrace : forall opening rest,
            type_of opening = LBRACE token ->
            repeat_bounds self (Node (Repeater syms) (opening :: rest))
            = do closing <- index_last (opening :: rest);
              do _ <- assert (bool_decide (type_of closing = RBRACE token));
              do _ <- assert (bool_decide (length (opening :: rest) = 3%nat)
                              || bool_decide
                                   (length (opening :: rest) = 5%nat));
              do first <- index (opening :: rest) 1;
              do min <- get_int self first;
              if decide (length (opening :: rest) = 5%nat) then
                do second <- index (opening :: rest) 3;
                do max <- get_int self second;
                Ok (min, max)
              else Ok (min, min)).
  { intros opening rest Hopen. unfold repeat_bounds.
    cbn [type_of children_of].
    rewrite bool_decide_eq_true_2 by reflexivity.
    change (index (opening :: rest) 0) with (@Ok tree opening).
    cbn [bind assert]. rewrite Hopen.
    rewrite decide_False by apart 4%nat 6%nat.
    rewrite decide_False by apart 5%nat 6%nat.
    rewrite decide_True by reflexivity. reflexivity. }
  split; [| split; [| split; [| split]]].
  - unfold repeat_bounds. simpl.
    rewrite bool_decide_eq_true_2 by reflexivity. reflexivity.
  - intros child rest. rewrite !not_elem_of_cons. intros (Hs & Hp & Hb & _).
    unfold repeat_bounds. simpl.
    rewrite bool_decide_eq_true_2 by reflexivity. simpl.
    rewrite decide_False by exact Hs. rewrite decide_False by exact Hp.
    rewrite decide_False by exact Hb. reflexivity.
  - intros opening rest closing Hopen Hlast Hclose.
    rewrite Hbrace by exact Hopen. unfold index_last. rewrite Hlast.
    cbn [bind]. rewrite bool_decide_eq_false_2 by exact Hclose. reflexivity.
  - intros opening rest closing Hopen Hlast Hclose H3 H5.
    rewrite Hbrace by exact Hopen. unfold index_last. rewrite Hlast.
    cbn [bind]. rewrite bool_decide_eq_true_2 by exact Hclose.
    cbn [bind assert].
    rewrite (bool_decide_eq_false_2 _ H3), (bool_decide_eq_false_2 _ H5).
    reflexivity.
  - intros opening first rest closing Hopen Hlast Hclose Hfirst.
    rewrite Hbrace by exact Hopen. unfold index_last. rewrite Hlast.
    cbn [bind]. rewrite bool_decide_eq_true_2 by exact Hclose.
    cbn [bind assert].
    destruct (bool_decide (length (opening :: first :: rest) = 3%nat)
              || bool_decide (length (opening :: first :: rest) = 5%nat));
      [| reflexivity].
    change (index (opening :: first :: rest) 1) with (@Ok tree first).
    cbn [bind]. unfold get_int.
    rewrite bool_decide_eq_false_2 by exact Hfirst. reflexivity.
Qed.

(** X15. Nodes without the children they need fail an assertion:
    [compile_basic] on no node, a [NegatedUnit] with nothing after the
    negation, a [Unit] without children, and the [Alternatives] and
    [Alternative] nodes without children, for which the constructor of
    [WildcardPattern] is given no alternative, or an empty one. *)
Theorem nodes_without_children :
  (forall repeat, compile_basic self [] repeat = Raise AssertionError)
  /\ compile_node self (Node (NegatedUnit syms) []) = Raise AssertionError
  /\ (forall negation,
        compile_node self (Node (NegatedUnit syms) [negation])
        = Raise AssertionError)
  /\ compile_node self (Node (Unit syms) []) = Raise AssertionError
  /\ compile_node self (Node (Alternatives syms) []) = Raise AssertionError
  /\ compile_node self (Node (Alternative syms) []) = Raise AssertionError.
Proof.
  split; [reflexivity |].
  split; [rewrite compile_node_NegatedUnit; reflexivity |].
  split; [intros negation; rewrite compile_node_NegatedUnit; reflexivity |].
  split; [rewrite compile_node_Unit; reflexivity |].
  split.
  - rewrite compile_node_Alternatives. simpl.
    rewrite WildcardPattern_init_empty by now left. reflexivity.
  - rewrite compile_node_Alternative. simpl.
    rewrite WildcardPattern_init_empty by (right; left). reflexivity.
Qed.

End Extras.

(** ** From the text of a pattern to its matcher *)

Section Pipeline.

Variable self : compiler.
Variable driver : pgen2.

Local Opaque compile_node.

(** A layout token more in the stream of the tokenizer. *)
Lemma tokenize_wrapper_layout (input other : string)
    (before after : list quintuple) (layout : quintuple) :
  generate_tokens driver input = (before ++ after)%list ->
  generate_tokens driver other = (before ++ layout :: after)%list ->
  q_type layout ∈ skip driver ->
  tokenize_wrapper driver other = tokenize_wrapper driver input.
Proof.
  unfold tokenize_wrapper. intros -> -> Hlayout.
  rewrite !filter_app. rewrite filter_cons_False; [reflexivity |].
  intros H. now apply H.
Qed.

(** X16. [tokenize_wrapper] yields the tokens of the tokenizer that are not
    NEWLINE, INDENT or DEDENT tokens, all of them and no other, in the order
    of the stream; a stream without these three kinds passes unchanged, and
    a layout token put anywhere into a stream leaves what is yielded
    unchanged. *)
Theorem layout_tokens_are_suppressed (input : string) :
  (forall quintuple,
     quintuple ∈ tokenize_wrapper driver input
     <-> quintuple ∈ generate_tokens driver input
         /\ q_type quintuple <> NEWLINE driver
         /\ q_type quintuple <> INDENT driver
         /\ q_type quintuple <> DEDENT driver)
  /\ sublist (tokenize_wrapper driver input) (generate_tokens driver input)
  /\ ((forall quintuple,
         quintuple ∈ generate_tokens driver input ->
         q_type quintuple ∉ skip driver) ->
      tokenize_wrapper driver input = generate_tokens driver input)
  /\ (forall other before layout after,
        generate_tokens driver input = (before ++ after)%list ->
        generate_tokens driver other = (before ++ layout :: after)%list ->
        q_type layout ∈ skip driver ->
        tokenize_wrapper driver other = tokenize_wrapper driver input).
Proof.
  unfold tokenize_wrapper. split; [| split; [| split]].
  - intros quintuple. rewrite list_elem_of_filter. unfold skip.
    rewrite !not_elem_of_union, !not_elem_of_singleton. tauto.
  - apply sublist_filter.
  - induction (generate_tokens driver input) as [| q l IH]; intros H;
      [reflexivity |].
    rewrite filter_cons_True by (apply H; left).
    rewrite IH; [reflexivity |]. intros q' Hq'. apply H. now right.
  - intros other before layout after Hinput Hother Hlayout.
    fold (tokenize_wrapper driver other). fold (tokenize_wrapper driver input).
    eapply tokenize_wrapper_layout; eassumption.
Qed.

(** X17. [pattern_convert] keeps the type and the children of the raw
    node; it builds a leaf, which carries the text, exactly for a raw node
    without children whose type is not a symbol of the grammar: a symbol is
    a [Node] even without children. *)
Theorem pattern_convert_shape (number2symbol : gmap Z string)
    (raw : raw_node_info) :
  type_of (pattern_convert number2symbol raw) = raw_type raw
  /\ children_of (pattern_convert number2symbol raw) = raw_children raw
  /\ (value_of (pattern_convert number2symbol raw) = Ok (raw_value raw)
      <-> raw_children raw = [] /\ number2symbol !! raw_type raw = None)
  /\ (pattern_convert number2symbol raw
      = Node (raw_type raw) (raw_children raw)
      <-> raw_children raw <> []
          \/ is_Some (number2symbol !! raw_type raw)).
Proof.
  unfold pattern_convert.
  destruct (raw_children raw) as [| child children] eqn:Hc.
  - destruct (decide (is_Some (number2symbol !! raw_type raw))) as [H | H];
      simpl.
    + repeat split; try reflexivity; try discriminate.
      * intros [_ Hnone]. rewrite Hnone in H. now destruct H.
      * intros _. now right.
    + repeat split; try reflexivity; try discriminate.
      * now apply eq_None_not_Some.
      * intros [Hne | Hs]; [done | contradiction].
  - simpl. repeat split; try reflexivity; try discriminate.
    + intros [Hnil _]. discriminate.
    + intros _. now left.
Qed.

(** X18. With and without [with_tree], [compile_pattern] compiles the same
    root: it returns the same pattern, the one that [compile_node] returns
    for the root of the parser, and raises the same exceptions; with
    [with_tree] that root comes with the pattern. *)
Theorem compile_pattern_with_tree (input : string) (debug : bool) :
  (forall pattern tree,
     compile_pattern self driver input debug true = Ok (pattern, tree) <->
     exists root,
       tree = Some root
       /\ parse_tokens driver (tokenize_wrapper driver input) debug
          = Root root
       /\ compile_node self root = Ok pattern)
  /\ (forall pattern tree,
        compile_pattern self driver input debug false = Ok (pattern, tree) <->
        exists root,
          tree = None
          /\ compile_pattern self driver input debug true
             = Ok (pattern, Some root))
  /\ (forall e,
        compile_pattern self driver input debug false = Raise e <->
        compile_pattern self driver input debug true = Raise e).
Proof.
  unfold compile_pattern.
  destruct (parse_tokens driver (tokenize_wrapper driver input) debug)
    as [root | msg].
  - destruct (compile_node self root) as [p | e |] eqn:E; simpl.
    + split; [| split].
      * intros pattern tree. split.
        -- intros [= <- <-]. now exists root.
        -- intros (r & -> & [= <-] & H). rewrite E in H.
           injection H as <-. reflexivity.
      * intros pattern tree. split.
        -- intros [= <- <-]. now exists root.
        -- intros (r & -> & [= <- <-]). reflexivity.
      * intros e. split; discriminate.
    + split; [| split].
      * intros pattern tree. split; [discriminate |].
        intros (r & _ & [= <-] & H). rewrite E in H. discriminate.
      * intros pattern tree. split; [discriminate |].
        intros (r & _ & H). discriminate.
      * intros e'. split; intros H; exact H.
    + split; [| split].
      * intros pattern tree. split; [discriminate |].
        intros (r & _ & [= <-] & H). rewrite E in H. discriminate.
      * intros pattern tree. split; [discriminate |].
        intros (r & _ & H). discriminate.
      * intros e'. split; discriminate.
  - split; [| split].
    + intros pattern tree. split; [discriminate |].
      intros (r & _ & H & _). discriminate.
    + intros pattern tree. split; [discriminate |].
      intros (r & _ & H). discriminate.
    + intros e. split; intros H; exact H.
Qed.

(** X19. A [PatternSyntaxError] of [compile_pattern] carries the text of
    the [ParseError] of the parser, or one of the three messages of the
    compiler; and [compile_pattern] raises it whenever the parser raises
    [ParseError], before anything is compiled. *)
Theorem compile_pattern_syntax_errors (input : string)
    (debug with_tree : bool) :
  (forall e,
     parse_tokens driver (tokenize_wrapper driver input) debug
     = ParseError e ->
     compile_pattern self driver input debug with_tree
     = Raise (PatternSyntaxError e))
  /\ (forall msg,
        compile_pattern self driver input debug with_tree
        = Raise (PatternSyntaxError msg) ->
        parse_tokens driver (tokenize_wrapper driver input) debug
        = ParseError msg
        \/ compiler_message msg).
Proof.
  unfold compile_pattern. split.
  - intros e ->. reflexivity.
  - intros msg.
    destruct (parse_tokens driver (tokenize_wrapper driver input) debug)
      as [root | e].
    + destruct (compile_node self root) as [p | e |] eqn:E;
        destruct with_tree; simpl; try discriminate;
        intros [= ->]; right;
        eapply compile_node_messages, E.
    + intros [= ->]. now left.
Qed.

End Pipeline.

(** ** More of the compiler, on the sample compiler *)

(** X1 on the unit [NAME]. *)
Lemma compile_node_terminates_witness :
  compile_node_fuel sample 7 (unit_node [name_leaf "NAME"])
  = compile_node sample (unit_node [name_leaf "NAME"]).
Proof.
  destruct (compile_node_terminates sample (unit_node [name_leaf "NAME"]))
    as (_ & _ & H & _).
  apply H. simpl. lia.
Defined.

(** X2 on the unit [NAME]. *)
Lemma results_are_optimized_witness :
  exists built, LeafPattern (Some 1) None None = optimize sample built.
Proof.
  apply (results_are_optimized sample (unit_node [name_leaf "NAME"])).
  vm_compute. reflexivity.
Defined.

(** X3 on the unit [FOO]. *)
Lemma syntax_error_messages_witness :
  compiler_message "Invalid token: 'FOO'".
Proof.
  apply (proj1 (syntax_error_messages sample) (unit_node [name_leaf "FOO"])).
  vm_compute. reflexivity.
Defined.

(** X4 on [NAME | NUMBER]. *)
Lemma several_alternatives_witness :
  compile_node sample
    (Node 257
       [Node 258 [unit_node [name_leaf "NAME"]]; op_leaf 18 "|";
        Node 258 [unit_node [name_leaf "NUMBER"]]])
  = Ok (WildcardPattern
          [[LeafPattern (Some 1) None None];
           [LeafPattern (Some 2) None None]] 1 1 None).
Proof.
  apply (several_alternatives sample
           [Node 258 [unit_node [name_leaf "NAME"]]; op_leaf 18 "|";
            Node 258 [unit_node [name_leaf "NUMBER"]]]
           [LeafPattern (Some 1) None None;
            LeafPattern (Some 2) None None]).
  - repeat constructor; vm_compute; reflexivity.
  - simpl. lia.
Defined.

(** X5 on [NAME NUMBER]. *)
Lemma sequence_of_units_witness :
  compile_node sample
    (Node 258 [unit_node [name_leaf "NAME"]; unit_node [name_leaf "NUMBER"]])
  = Ok (WildcardPattern
          [[LeafPattern (Some 1) None None;
            LeafPattern (Some 2) None None]] 1 1 None).
Proof.
  apply (sequence_of_units sample
           [unit_node [name_leaf "NAME"]; unit_node [name_leaf "NUMBER"]]
           [LeafPattern (Some 1) None None;
            LeafPattern (Some 2) None None]).
  - repeat constructor; vm_compute; reflexivity.
  - simpl. lia.
Defined.

(** X6 on [NAME FOO _x]: the error of [FOO] comes before that of [_x]. *)
Lemma first_error_wins_witness :
  compile_node sample
    (Node 258
       [unit_node [name_leaf "NAME"]; unit_node [name_leaf "FOO"];
        unit_node [name_leaf "_x"]])
  = Raise (PatternSyntaxError "Invalid token: 'FOO'").
Proof.
  apply (first_error_wins sample
           [unit_node [name_leaf "NAME"]] (unit_node [name_leaf "FOO"])
           [unit_node [name_leaf "_x"]] [LeafPattern (Some 1) None None]).
  - repeat constructor; vm_compute; reflexivity.
  - vm_compute. reflexivity.
Defined.

(** X7 on a [Matcher] over the unit [NAME]. *)
Lemma matcher_is_unwrapped_once_witness :
  compile_node sample (Node 256 [unit_node [name_leaf "NAME"]; op_leaf 0 ""])
  = compile_node sample (unit_node [name_leaf "NAME"]).
Proof.
  apply (proj1 (matcher_is_unwrapped_once sample)). discriminate.
Defined.

(** X8 on the leaf [NAME] and on a [Repeater] node. *)
Lemma other_nodes_are_rejected_witness :
  compile_node sample (name_leaf "NAME") = Raise AssertionError
  /\ compile_node sample (Node 261 [op_leaf 16 "*"]) = Raise AssertionError.
Proof.
  split; apply other_nodes_are_rejected;
    rewrite !not_elem_of_cons; repeat split;
    try (vm_compute; discriminate); apply not_elem_of_nil.
Defined.

(** X9 on [(NAME)]. *)
Lemma group_in_parentheses_witness :
  compile_basic sample
    [op_leaf 7 "("; Node 257 [Node 258 [unit_node [name_leaf "NAME"]]];
     op_leaf 8 ")"] None
  = compile_node sample (Node 257 [Node 258 [unit_node [name_leaf "NAME"]]])
  /\ compile_basic sample [op_leaf 7 "<"] None = Raise AssertionError.
Proof.
  destruct (group_in_parentheses sample 7) as (H1 & _ & H3);
    [discriminate | discriminate |].
  split; [apply H1 | apply H3; discriminate].
Defined.

(** X11 on [expr] and on [expr<NAME>]. *)
Lemma symbol_names_witness :
  compile_basic sample [name_leaf "expr"] None
  = Ok (NodePattern (Some 310) None None)
  /\ compile_basic sample
       [name_leaf "expr";
        Node 262
          [op_leaf 20 "<";
           Node 257 [Node 258 [unit_node [name_leaf "NAME"]]];
           op_leaf 21 ">"]] None
     = Ok (NodePattern (Some 310) (Some [LeafPattern (Some 1) None None])
             None)
  /\ compile_basic sample [name_leaf "expr"; Node 262 [op_leaf 20 "<"]] None
     = Raise IndexError.
Proof.
  destruct (symbol_names sample "expr" (Some 310) None) as (H1 & H2 & H3).
  - reflexivity.
  - right. repeat split; try reflexivity; [discriminate | now exists 310].
  - split; [exact H1 |]. split.
    + rewrite (H2 _ _ (Node 257 [Node 258 [unit_node [name_leaf "NAME"]]]))
        by reflexivity.
      vm_compute. reflexivity.
    + apply H3. simpl. lia.
Defined.

(** X13 on the children of [y=NUMBER*]. *)
Lemma unit_children_are_split_witness :
  take_repeat sample [name_leaf "NUMBER"; Node 261 [op_leaf 16 "*"]]
  = (Some (Node 261 [op_leaf 16 "*"]), [name_leaf "NUMBER"])
  /\ [name_leaf "NUMBER"; Node 261 [op_leaf 16 "*"]]
     = ([name_leaf "NUMBER"]
        ++ option_list (Some (Node 261 [op_leaf 16 "*"])))%list.
Proof.
  destruct (unit_children_are_split sample) as (_ & H2 & H3 & _).
  assert (H : take_repeat sample
                ([name_leaf "NUMBER"] ++ [Node 261 [op_leaf 16 "*"]])%list
              = (Some (Node 261 [op_leaf 16 "*"]), [name_leaf "NUMBER"])).
  { apply H3; [discriminate | reflexivity]. }
  split; [exact H |]. apply (H2 _ _ _ H).
Defined.

(** X14 on the repeaters [?], [{2] and [{2,3,4}]. *)
Lemma malformed_repeaters_witness :
  repeat_bounds sample (Node 261 [op_leaf 0 "?"]) = Raise AssertionError
  /\ repeat_bounds sample (Node 261 [op_leaf 26 "{"; number_leaf "2"])
     = Raise AssertionError
  /\ repeat_bounds sample
       (Node 261
          [op_leaf 26 "{"; number_leaf "2"; op_leaf 12 ",";
           number_leaf "3"; op_leaf 12 ","; number_leaf "4";
           op_leaf 27 "}"])
     = Raise AssertionError
  /\ repeat_bounds sample
       (Node 261 [op_leaf 26 "{"; name_leaf "n"; op_leaf 27 "}"])
     = Raise AssertionError.
Proof.
  destruct (malformed_repeaters sample) as (_ & H1 & H2 & H3 & H4).
  split; [| split; [| split]].
  - apply H1. rewrite !not_elem_of_cons.
    repeat split; try (vm_compute; discriminate). apply not_elem_of_nil.
  - apply (H2 _ _ (number_leaf "2")); [reflexivity | reflexivity |].
    discriminate.
  - apply (H3 _ _ (op_leaf 27 "}")); try reflexivity; simpl; lia.
  - apply (H4 _ _ _ (op_leaf 27 "}")); try reflexivity. discriminate.
Defined.

(** X16 on the texts [ex], newline, [pr] and [expr]. *)
Lemma layout_tokens_are_suppressed_witness :
  tokenize_wrapper sample_driver
    (String "e" (String "x" (String "010" (String "p" (String "r" "")))))
  = tokenize_wrapper sample_driver "expr".
Proof.
  destruct (layout_tokens_are_suppressed sample_driver "expr")
    as (_ & _ & _ & H).
  apply (H _ (one_token_per_char "ex")
           {| q_type := 4; q_value := String "010" "";
              q_start := (1%nat, 0%nat); q_end := (1%nat, 1%nat);
              q_line_text := "" |}
           (one_token_per_char "pr")).
  - reflexivity.
  - reflexivity.
  - vm_compute. reflexivity.
Defined.

(** X18 on the text [expr]. *)
Lemma compile_pattern_with_tree_witness :
  compile_pattern sample sample_driver "expr" false true
  = Ok (NodePattern (Some 310) None None,
        Some (Node 256 [Node 257 [Node 258 [Node 259 [Leaf 1 "expr"]]]])).
Proof.
  apply (proj1 (compile_pattern_with_tree sample sample_driver "expr" false)).
  eexists. split; [reflexivity |]. split; vm_compute; reflexivity.
Defined.

(** X19 on the empty text. *)
Lemma compile_pattern_syntax_errors_witness :
  compile_pattern sample sample_driver "" false false
  = Raise (PatternSyntaxError "no token").
Proof.
  apply (proj1 (compile_pattern_syntax_errors sample sample_driver ""
                  false false)).
  reflexivity.
Defined.
